(** * Chat Setpar SSO middleware: a shallow embedding and its properties

    Source: [server/utils/middleware/chatSetparSSO.js].

    Conventions of the embedding.
    - A JavaScript string is a [string]; its characters stand for the code
      units below 256, on which [String.prototype.toLowerCase] is the
      per-character map [lower_char].
    - A field of the decoded token payload is a [JsValue]: a JSON scalar or
      [JUndefined] for an absent field.  A number is an integer.
    - Every awaited call on a collaborator that is not part of this file
      (token verification, settings store, user store, exchange tokens,
      random bytes) is an operation [Op] of a program tree [Prog]; a run
      against a stateful world records every call with its answer.
    - Console output is left out: it never changes control flow. *)

From Stdlib Require Import ZArith List String Ascii Bool Lia DecimalString.
Import ListNotations.
Local Open Scope string_scope.
Local Open Scope Z_scope.

Set Implicit Arguments.

(** ** JavaScript strings *)

Module JsString.

Definition code (c : ascii) : nat := nat_of_ascii c.

Definition in_range (lo hi : nat) (c : ascii) : bool :=
  (Nat.leb lo (code c) && Nat.leb (code c) hi)%bool.

Definition is_upper (c : ascii) : bool := in_range 65 90 c.
Definition is_lower (c : ascii) : bool := in_range 97 122 c.
Definition is_digit (c : ascii) : bool := in_range 48 57 c.

(** Capital letters of the upper half (U+00C0..U+00DE without the
    multiplication sign U+00D7) also have a lower-case form 32 above. *)
Definition is_upper_latin1 (c : ascii) : bool :=
  (in_range 192 222 c && negb (Nat.eqb (code c) 215))%bool.

Definition lower_char (c : ascii) : ascii :=
  if (is_upper c || is_upper_latin1 c)%bool
  then ascii_of_nat (code c + 32)
  else c.

(** [s.toLowerCase()] *)
Fixpoint toLowerCase (s : string) : string :=
  match s with
  | EmptyString => EmptyString
  | String c r => String (lower_char c) (toLowerCase r)
  end.

(** [s.replace(/[^...]/g, "")]: keep the characters of the class. *)
Fixpoint keep (cls : ascii -> bool) (s : string) : string :=
  match s with
  | EmptyString => EmptyString
  | String c r => if cls c then String c (keep cls r) else keep cls r
  end.

(** [s.substring(0, n)] *)
Fixpoint substring0 (n : nat) (s : string) : string :=
  match n, s with
  | O, _ => EmptyString
  | _, EmptyString => EmptyString
  | S m, String c r => String c (substring0 m r)
  end.

(** [s.split(sep)[0]] for a one-character separator: the text before the
    first occurrence, or all of [s]. *)
Fixpoint before_first (sep : ascii) (s : string) : string :=
  match s with
  | EmptyString => EmptyString
  | String c r => if Ascii.eqb c sep then EmptyString
                  else String c (before_first sep r)
  end.

(** White space of [String.prototype.trim] among the code units below
    256: TAB, LF, VT, FF, CR, SP and NBSP. *)
Definition is_space (c : ascii) : bool :=
  (in_range 9 13 c || Nat.eqb (code c) 32 || Nat.eqb (code c) 160)%bool.

Fixpoint trimStart (s : string) : string :=
  match s with
  | EmptyString => EmptyString
  | String c r => if is_space c then trimStart r else s
  end.

Fixpoint trimEnd (s : string) : string :=
  match s with
  | EmptyString => EmptyString
  | String c r =>
      match trimEnd r with
      | EmptyString => if is_space c then EmptyString
                       else String c EmptyString
      | r' => String c r'
      end
  end.

Definition trim (s : string) : string := trimEnd (trimStart s).

(** [arr.includes(s)] on an array of strings *)
Definition includes (arr : list string) (s : string) : bool :=
  existsb (String.eqb s) arr.

Definition is_empty (s : string) : bool :=
  match s with EmptyString => true | _ => false end.

Definition chars (s : string) : list ascii := list_ascii_of_string s.

End JsString.

(** ** JavaScript values found in a decoded payload *)

Inductive JsValue : Type :=
| JUndefined
| JNull
| JBool (b : bool)
| JNum (n : Z)
| JStr (s : string).

Module Js.

(** ToBoolean *)
Definition truthy (v : JsValue) : bool :=
  match v with
  | JUndefined | JNull => false
  | JBool b => b
  | JNum n => negb (n =? 0)
  | JStr s => negb (JsString.is_empty s)
  end.

(** [String(v)] *)
Definition ToString (v : JsValue) : string :=
  match v with
  | JUndefined => "undefined"
  | JNull => "null"
  | JBool true => "true"
  | JBool false => "false"
  | JNum n => NilZero.string_of_int (Z.to_int n)
  | JStr s => s
  end.

(** [a || b] *)
Definition or (a b : JsValue) : JsValue := if truthy a then a else b.

(** A default parameter value replaces [undefined] only. *)
Definition default_param (v d : JsValue) : JsValue :=
  match v with JUndefined => d | _ => v end.

(** [v === true] *)
Definition is_true (v : JsValue) : bool :=
  match v with JBool true => true | _ => false end.

(** [v === s] for a string literal [s] *)
Definition is_string (v : JsValue) (s : string) : bool :=
  match v with JStr t => String.eqb t s | _ => false end.

End Js.

(** ** The payload and the pure helpers

    The claims of the token read by the middleware. *)

Record Payload : Type := mkPayload {
  userId : JsValue;
  email : JsValue;
  isSuperAdmin : JsValue;
  isOwner : JsValue;
  role : JsValue
}.

(** [/[a-z0-9]/] *)
Definition class_alnum (c : ascii) : bool :=
  (JsString.is_lower c || JsString.is_digit c)%bool.

(** [/[a-z0-9._@-]/] *)
Definition class_legacy (c : ascii) : bool :=
  (class_alnum c
   || Ascii.eqb c "." || Ascii.eqb c "_" || Ascii.eqb c "@" || Ascii.eqb c "-")%bool.

(** [/[a-z0-9_]/] *)
Definition class_word (c : ascii) : bool :=
  (class_alnum c || Ascii.eqb c "_")%bool.

(** [isTruthyEnv(value)]; an unset variable is [None]. *)
Definition isTruthyEnv (value : option string) : bool :=
  match value with
  | None => false
  | Some v =>
      let normalized := JsString.toLowerCase (JsString.trim v) in
      negb (JsString.includes [""; "0"; "false"; "no"; "off"] normalized)
  end.

(** [legacyUsernameFromEmail(email = "")] *)
Definition legacyUsernameFromEmail (email : JsValue) : string :=
  JsString.substring0 32
    (JsString.keep class_legacy
       (JsString.toLowerCase
          (JsString.before_first "@"
             (Js.ToString (Js.default_param email (JStr "")))))).

Definition stableExternalId (payload : Payload) : string :=
  JsString.keep class_alnum
    (JsString.toLowerCase (Js.ToString (Js.or (userId payload) (JStr "")))).

(** [usernameFromPayload(payload)]; [None] is the [null] result. *)
Definition usernameFromPayload (payload : Payload) : option string :=
  let id := stableExternalId payload in
  if negb (JsString.is_empty id)
  then Some (JsString.substring0 32 ("setpar_" ++ id))
  else
    let fallbackFromEmail := legacyUsernameFromEmail (email payload) in
    if JsString.is_empty fallbackFromEmail then None
    else Some (JsString.substring0 32 ("setpar_" ++ fallbackFromEmail)).

(** [mapSetparRoleToAnything(payload)] *)
Definition mapSetparRoleToAnything (payload : Payload) : string :=
  let isSetparSuperAdmin :=
    (Js.is_true (isSuperAdmin payload)
     || Js.is_true (isOwner payload)
     || Js.is_string (role payload) "superadmin")%bool in
  if isSetparSuperAdmin then "manager" else "default".

(** A payload carrying only an identifier and an email. *)
Definition payload_of (uid em : JsValue) : Payload :=
  mkPayload uid em JUndefined JUndefined JUndefined.

(** [encodeURIComponent(s)]: the unreserved characters stay, every other
    code unit becomes the percent-escapes of its UTF-8 bytes. *)
Module Uri.

Definition hex_digit (n : nat) : ascii :=
  if Nat.ltb n 10 then ascii_of_nat (48 + n) else ascii_of_nat (55 + n).

Definition escape_byte (b : nat) : string :=
  String "%" (String (hex_digit (Nat.div b 16))
                (String (hex_digit (Nat.modulo b 16)) EmptyString)).

Definition unreserved (c : ascii) : bool :=
  (JsString.is_upper c || JsString.is_lower c || JsString.is_digit c
   || existsb (Ascii.eqb c)
        ["-"; "_"; "."; "!"; "~"; "*"; "'"; "("; ")"]%char)%bool.

Definition encode_char (c : ascii) : string :=
  let n := JsString.code c in
  if unreserved c then String c EmptyString
  else if Nat.ltb n 128 then escape_byte n
  else (escape_byte (192 + Nat.div n 64)
        ++ escape_byte (128 + Nat.modulo n 64))%string.

Fixpoint encodeURIComponent (s : string) : string :=
  match s with
  | EmptyString => EmptyString
  | String c r => (encode_char c ++ encodeURIComponent r)%string
  end.

End Uri.

(** ** Collaborators and program trees *)

(** A thrown value: the middleware reads its [name] only. *)
Record JsError : Type := mkError {
  name : string;
  message : string
}.

Module User.
(** A row of the user store, as far as the middleware reads it. *)
Record t : Type := mk {
  id : Z;
  username : string;
  role : string;
  password : option string
}.
End User.

(** The second argument of [User._update]. *)
Inductive UserPatch : Type :=
| SetUsername (username : string)
| SetRole (role : string).

Record SettingsResult : Type := mkSettingsResult {
  success : bool;
  settings_error : option string
}.

Record UpdateResult : Type := mkUpdateResult {
  updated_user : option User.t;
  update_message : option string
}.

Record CreateResult : Type := mkCreateResult {
  created_user : option User.t;
  create_error : option string
}.

Record IssueResult : Type := mkIssueResult {
  token : option string;
  issue_error : option string
}.

(** The calls the middleware makes on its collaborators. *)
Inductive Op : Type :=
| JWT_verify (ssoToken jwtSecret : string)
| SystemSettings_isMultiUserMode
| SystemSettings_updateSettings (multi_user_mode onboarding_complete : bool)
| User_get (username : string)
| User_update (id : Z) (patch : UserPatch)
| User_filterFields (user : User.t)
| User_create (username password role : string)
| crypto_randomBytes_hex (size : nat)
| TemporaryAuthToken_issue (userId : Z).

(** What each call resolves to when it does not throw. *)
Definition resp (o : Op) : Type :=
  match o with
  | JWT_verify _ _ => Payload
  | SystemSettings_isMultiUserMode => bool
  | SystemSettings_updateSettings _ _ => SettingsResult
  | User_get _ => option User.t
  | User_update _ _ => UpdateResult
  | User_filterFields _ => User.t
  | User_create _ _ _ => CreateResult
  | crypto_randomBytes_hex _ => string
  | TemporaryAuthToken_issue _ => IssueResult
  end.

Inductive Prog (R : Type) : Type :=
| Ret (r : R)
| Throw (e : JsError)
| Do (o : Op) (k : resp o -> Prog R).

Arguments Ret {R} r.
Arguments Throw {R} e.
Arguments Do {R} o k.

Fixpoint bind {A B : Type} (p : Prog A) (f : A -> Prog B) : Prog B :=
  match p with
  | Ret a => f a
  | Throw e => Throw e
  | Do o k => Do o (fun x => bind (k x) f)
  end.

Definition call (o : Op) : Prog (resp o) := Do o (fun x => Ret x).

Notation "x <- p ;; q" := (bind p (fun x => q))
  (at level 61, p at next level, right associativity).

(** Truthiness of an optional string ([null] and the empty string are
    falsy). *)
Definition truthy_string (o : option string) : bool :=
  match o with
  | Some s => negb (JsString.is_empty s)
  | None => false
  end.

(** Process environment and request, as far as they are read. *)
Record Env : Type := mkEnv {
  CHAT_SETPAR_JWT_SECRET : option string;
  CHAT_SETPAR_DEFAULT_MULTI_USER : option string;
  CHAT_SETPAR_AUTO_ENABLE_MULTI_USER : option string
}.

Record Request : Type := mkRequest {
  sso_token : option string;
  path : string
}.

Inductive Response : Type :=
| Next
| Json (status : Z) (error : string)
| Redirect (status : Z) (url : string).

(** ** The middleware *)

(** [enableMultiUserMode(reason)]; the reason is only logged. *)
Definition enableMultiUserMode (reason : string) : Prog bool :=
  r <- call (SystemSettings_updateSettings true true) ;;
  if negb (success r) then Ret false else Ret true.

(** [ensureSetparDefaultMultiUserMode()] *)
Definition ensureSetparDefaultMultiUserMode (env : Env) : Prog bool :=
  alreadyEnabled <- call SystemSettings_isMultiUserMode ;;
  if alreadyEnabled : bool then Ret true
  else if negb (isTruthyEnv (CHAT_SETPAR_DEFAULT_MULTI_USER env))
  then Ret false
  else enableMultiUserMode "CHAT_SETPAR_DEFAULT_MULTI_USER".

(** The tail of [ensureMultiUserModeEnabled] after the boot-time default:
    the fallback on the auto-enable switch. *)
Definition autoEnableFallback (env : Env) : Prog bool :=
  if negb (isTruthyEnv (CHAT_SETPAR_AUTO_ENABLE_MULTI_USER env))
  then Ret false
  else enableMultiUserMode "CHAT_SETPAR_AUTO_ENABLE_MULTI_USER".

(** [ensureMultiUserModeEnabled()] *)
Definition ensureMultiUserModeEnabled (env : Env) : Prog bool :=
  alreadyEnabled <- call SystemSettings_isMultiUserMode ;;
  if alreadyEnabled : bool then Ret true
  else if isTruthyEnv (CHAT_SETPAR_DEFAULT_MULTI_USER env)
  then
    enabledByDefault <- enableMultiUserMode "CHAT_SETPAR_DEFAULT_MULTI_USER" ;;
    if enabledByDefault : bool then Ret true else autoEnableFallback env
  else autoEnableFallback env.

(** Lines 147-164 of [chatSetparSSO]: what is done with the result of the
    legacy lookup. *)
Definition migrateLegacyUser (username : string) (legacyUser : option User.t)
  : Prog (option User.t) :=
  match legacyUser with
  | Some legacy =>
      usernameAlreadyTaken <- call (User_get username) ;;
      match usernameAlreadyTaken with
      | None =>
          r <- call (User_update (User.id legacy) (SetUsername username)) ;;
          match updated_user r with
          | Some renamedUser =>
              filtered <- call (User_filterFields renamedUser) ;;
              Ret (Some filtered)
          | None => Ret None
          end
      | Some _ => Ret (Some legacy)
      end
  | None => Ret None
  end.

(** Lines 139-166 of [chatSetparSSO]: the primary lookup and the migration
    of a legacy user; the result is the variable [user]. *)
Definition resolveUser (username : string) (email : JsValue)
  : Prog (option User.t) :=
  user <- call (User_get username) ;;
  match user with
  | Some _ => Ret user
  | None =>
      let legacyUsername := legacyUsernameFromEmail email in
      if (negb (JsString.is_empty legacyUsername)
          && negb (String.eqb legacyUsername username))%bool
      then
        legacyUser <- call (User_get legacyUsername) ;;
        migrateLegacyUser username legacyUser
      else Ret None
  end.

(** Reading [user.id] of a [null] user. *)
Definition TypeError : JsError :=
  mkError "TypeError" "Cannot read properties of null (reading 'id')".

(** Lines 168-199: create the user or synchronise its role.  [inl] is a
    response returned early, [inr] the user handed to the session bridge
    ([None] when the store reported neither an error nor a user). *)
Definition provisionUser (username mappedRole : string) (user : option User.t)
  : Prog (Response + option User.t) :=
  match user with
  | None =>
      randomPassword <- call (crypto_randomBytes_hex 32) ;;
      r <- call (User_create username randomPassword mappedRole) ;;
      if truthy_string (create_error r)
      then Ret (inl (Json 500 "Failed to create SSO user."))
      else Ret (inr (created_user r))
  | Some u =>
      if negb (String.eqb (User.role u) mappedRole)
      then
        r <- call (User_update (User.id u) (SetRole mappedRole)) ;;
        match updated_user r with
        | None => Ret (inl (Json 500 "Failed to sync SSO user role."))
        | Some updatedUser =>
            filtered <- call (User_filterFields updatedUser) ;;
            Ret (inr (Some filtered))
        end
      else Ret (inr (Some u))
  end.

(** Lines 201-214: issue the exchange token and build the redirect. *)
Definition sessionBridge (req : Request) (user : option User.t)
  : Prog Response :=
  match user with
  | None => Throw TypeError
  | Some u =>
      r <- call (TemporaryAuthToken_issue (User.id u)) ;;
      match token r with
      | Some tempToken =>
          if (truthy_string (issue_error r)
              || JsString.is_empty tempToken)%bool
          then Ret (Json 500 "Failed to create SSO session.")
          else
            let redirectTo :=
              if (negb (JsString.is_empty (path req))
                  && negb (String.eqb (path req) "/sso/simple"))%bool
              then path req else "/" in
            Ret (Redirect 302
                   ("/sso/simple?token=" ++ Uri.encodeURIComponent tempToken
                    ++ "&redirectTo=" ++ Uri.encodeURIComponent redirectTo))
      | None => Ret (Json 500 "Failed to create SSO session.")
      end
  end.

(** The [try] block of [chatSetparSSO]. *)
Definition chatSetparSSO_try (env : Env) (req : Request)
    (ssoToken jwtSecret : string) : Prog Response :=
  payload <- call (JWT_verify ssoToken jwtSecret) ;;
  if (negb (Js.truthy (userId payload)) || negb (Js.truthy (email payload)))%bool
  then Ret (Json 401 "Invalid SSO token payload.")
  else
    multiUserMode <- ensureMultiUserModeEnabled env ;;
    if negb multiUserMode
    then Ret (Json 403 "Multi-user mode must be enabled for SSO.")
    else
      match usernameFromPayload payload with
      | None => Ret (Json 401 "Invalid SSO token payload.")
      | Some username =>
          let mappedRole := mapSetparRoleToAnything payload in
          user <- resolveUser username (email payload) ;;
          provisioned <- provisionUser username mappedRole user ;;
          match provisioned with
          | inl response => Ret response
          | inr user' => sessionBridge req user'
          end
      end.

(** The [catch] block. *)
Definition chatSetparSSO_catch (err : JsError) : Response :=
  if String.eqb (name err) "TokenExpiredError"
  then Json 401 "SSO token expired."
  else if String.eqb (name err) "JsonWebTokenError"
  then Json 401 "Invalid SSO token."
  else Json 500 "SSO authentication failed.".

(** ** Running a program against a world *)

Inductive Outcome (R : Type) : Type :=
| Returned (r : R)
| Raised (e : JsError).

Arguments Returned {R} r.
Arguments Raised {R} e.

(** A call together with what it threw or resolved to. *)
Definition Event : Type := {o : Op & (JsError + resp o)%type}.

Definition event (o : Op) (a : JsError + resp o) : Event := existT _ o a.
Definition resolved (o : Op) (a : resp o) : Event := event o (inr a).
Definition rejected (o : Op) (e : JsError) : Event := event o (inl e).
Definition op_of (ev : Event) : Op := projT1 ev.

Section Run.

Variable World : Type.
Variable handle : forall o : Op, World -> (JsError + resp o) * World.

Fixpoint run {R : Type} (p : Prog R) (w : World)
  : Outcome R * World * list Event :=
  match p with
  | Ret r => (Returned r, w, [])
  | Throw e => (Raised e, w, [])
  | Do o k =>
      match handle o w with
      | (inl e, w') => (Raised e, w', [rejected o e])
      | (inr a, w') =>
          let '(out, w'', tr) := run (k a) w' in
          (out, w'', resolved o a :: tr)
      end
  end.

(** [chatSetparSSO(req, res, next)]: the response, the world left behind
    and the calls made. *)
Definition chatSetparSSO (env : Env) (req : Request) (w : World)
  : Response * World * list Event :=
  match sso_token req with
  | None => (Next, w, [])
  | Some ssoToken =>
      if JsString.is_empty ssoToken then (Next, w, [])
      else
        match CHAT_SETPAR_JWT_SECRET env with
        | None => (Next, w, [])
        | Some jwtSecret =>
            if JsString.is_empty jwtSecret then (Next, w, [])
            else
              let '(out, w', tr) :=
                run (chatSetparSSO_try env req ssoToken jwtSecret) w in
              (match out with
               | Returned response => response
               | Raised err => chatSetparSSO_catch err
               end, w', tr)
        end
  end.

End Run.

(** ** A reference world

    Modelled from the spec: the user store, the settings store, the token
    verifier and the exchange-token store are collaborators whose code is
    not part of the middleware.  [Mem] is an in-memory stand-in used to run
    the middleware on concrete requests: usernames are unique in the user
    store, setting the multi-tenant flag is idempotent, a store call can be
    made to report failure ([faulty]), and users written by other requests
    can land between two calls ([arrivals], keyed by the number of calls
    handled so far). *)
Module Mem.

Record World : Type := mk {
  users : list User.t;
  multi_user_mode : bool;
  onboarding_complete : bool;
  verified : JsError + Payload;
  next_id : Z;
  clock : nat;
  faulty : Op -> bool;
  arrivals : list (nat * User.t)
}.

Definition by_username (n : string) (u : User.t) : bool :=
  String.eqb (User.username u) n.

Definition by_id (i : Z) (u : User.t) : bool := User.id u =? i.

Definition apply_patch (p : UserPatch) (u : User.t) : User.t :=
  match p with
  | SetUsername n => User.mk (User.id u) n (User.role u) (User.password u)
  | SetRole r => User.mk (User.id u) (User.username u) r (User.password u)
  end.

Definition patch_user (i : Z) (p : UserPatch) (us : list User.t)
  : list User.t :=
  map (fun u => if by_id i u then apply_patch p u else u) us.

Definition collides (i : Z) (p : UserPatch) (us : list User.t) : bool :=
  match p with
  | SetUsername n =>
      existsb (fun u => (by_username n u && negb (by_id i u))%bool) us
  | SetRole _ => false
  end.

Definition landed (w : World) : list User.t :=
  users w ++ map snd (filter (fun a => Nat.eqb (fst a) (clock w)) (arrivals w)).

Definition with_users (w : World) (us : list User.t) (nid : Z) : World :=
  mk us (multi_user_mode w) (onboarding_complete w) (verified w) nid
     (S (clock w)) (faulty w) (arrivals w).

Definition with_flags (w : World) (us : list User.t) (m o : bool) : World :=
  mk us m o (verified w) (next_id w) (S (clock w)) (faulty w) (arrivals w).

Definition store_failure : option string := Some "store failure".

Definition handle (o : Op) (w : World) : (JsError + resp o) * World :=
  let us := landed w in
  let same := with_users w us (next_id w) in
  match o return (JsError + resp o) * World with
  | JWT_verify _ _ => (verified w, same)
  | SystemSettings_isMultiUserMode => (inr (multi_user_mode w), same)
  | SystemSettings_updateSettings m c =>
      if faulty w o
      then (inr (mkSettingsResult false store_failure), same)
      else (inr (mkSettingsResult true None), with_flags w us m c)
  | User_get n => (inr (find (by_username n) us), same)
  | User_update i p =>
      if (faulty w o || collides i p us)%bool
      then (inr (mkUpdateResult None store_failure), same)
      else
        let us' := patch_user i p us in
        (inr (mkUpdateResult (find (by_id i) us') None),
         with_users w us' (next_id w))
  | User_filterFields u =>
      (inr (User.mk (User.id u) (User.username u) (User.role u) None), same)
  | User_create n pw r =>
      if (faulty w o || existsb (by_username n) us)%bool
      then (inr (mkCreateResult None store_failure), same)
      else
        let u := User.mk (next_id w) n r (Some pw) in
        (inr (mkCreateResult (Some u) None),
         with_users w (us ++ [u]) (next_id w + 1))
  | crypto_randomBytes_hex n =>
      (inr (string_of_list_ascii (repeat "a"%char (2 * n))), same)
  | TemporaryAuthToken_issue i =>
      if faulty w o
      then (inr (mkIssueResult None store_failure), same)
      else (inr (mkIssueResult
                   (Some ("t-" ++ NilZero.string_of_int (Z.to_int i))) None),
            same)
  end.

Definition no_fault (o : Op) : bool := false.

(** A world holding [us], with the multi-tenant flag [m], in which the
    request's token verifies to [p]. *)
Definition init (us : list User.t) (m : bool) (p : Payload) : World :=
  mk us m m (inr p) 100 0 no_fault [].

End Mem.

(** ** Vocabulary of the statements *)

(** Every character of [s] is in the class [cls]. *)
Definition all_chars (cls : ascii -> bool) (s : string) : Prop :=
  Forall (fun c => cls c = true) (JsString.chars s).

(** [/[a-z0-9._-]/]: the legacy class without the separator [@]. *)
Definition class_localpart (c : ascii) : bool :=
  (class_alnum c || Ascii.eqb c "." || Ascii.eqb c "_" || Ascii.eqb c "-")%bool.

(** The calls of a trace, without their answers. *)
Definition ops (tr : list Event) : list Op := map op_of tr.

Definition user_store_read (o : Op) : bool :=
  match o with User_get _ => true | _ => false end.

Definition user_store_write (o : Op) : bool :=
  match o with
  | User_update _ _ | User_create _ _ _ => true
  | _ => false
  end.

Definition settings_write (o : Op) : bool :=
  match o with SystemSettings_updateSettings _ _ => true | _ => false end.

Definition is_create (o : Op) : bool :=
  match o with User_create _ _ _ => true | _ => false end.

Definition is_rename (o : Op) : bool :=
  match o with User_update _ (SetUsername _) => true | _ => false end.

(** A call that reads or writes the user store or writes the settings. *)
Definition store_access (o : Op) : bool :=
  (user_store_read o || user_store_write o || settings_write o)%bool.

(** The usernames looked up in a trace, in order. *)
Fixpoint lookups (l : list Op) : list string :=
  match l with
  | [] => []
  | User_get n :: r => n :: lookups r
  | _ :: r => lookups r
  end.

(** The two events of the multi-tenancy bootstrapper. *)
Definition read_flag (b : bool) : Event :=
  resolved SystemSettings_isMultiUserMode b.

Definition enable_attempt (r : SettingsResult) : Event :=
  resolved (SystemSettings_updateSettings true true) r.

(** Concrete requests, payloads and users for the examples. *)
Module Sample.

Definition env_off : Env := mkEnv (Some "secret") None None.
Definition env_default_on : Env := mkEnv (Some "secret") (Some "true") None.
Definition req : Request := mkRequest (Some "tok") "/workspace/a b".

Definition bob : User.t := User.mk 7 "bob.smith" "default" (Some "pw").
Definition holder : User.t := User.mk 9 "setpar_u1" "default" (Some "pw").

Definition email_only : Payload :=
  payload_of JUndefined (JStr "Bob.Smith@x.com").
Definition u1 : Payload := payload_of (JStr "U1") (JStr "Bob.Smith@x.com").
Definition unusable_id : Payload :=
  payload_of (JStr "!!!") (JStr "Bob.Smith@x.com").

Definition rename_fails (o : Op) : bool := is_rename o.
Definition enable_fails (o : Op) : bool := settings_write o.

Definition with_faults (w : Mem.World) (f : Op -> bool) : Mem.World :=
  Mem.mk (Mem.users w) (Mem.multi_user_mode w) (Mem.onboarding_complete w)
         (Mem.verified w) (Mem.next_id w) (Mem.clock w) f (Mem.arrivals w).

Definition with_arrivals (w : Mem.World) (a : list (nat * User.t))
  : Mem.World :=
  Mem.mk (Mem.users w) (Mem.multi_user_mode w) (Mem.onboarding_complete w)
         (Mem.verified w) (Mem.next_id w) (Mem.clock w) (Mem.faulty w) a.

Definition world_email_only : Mem.World := Mem.init [] true email_only.
Definition world_legacy : Mem.World := Mem.init [bob] true u1.
Definition world_conflict : Mem.World := Mem.init [bob; holder] true u1.
Definition world_rename_fails : Mem.World :=
  with_faults world_legacy rename_fails.
Definition world_race : Mem.World :=
  with_arrivals world_legacy [(2%nat, holder)].
Definition world_disabled : Mem.World := Mem.init [bob] false u1.
Definition world_enable_fails : Mem.World :=
  with_faults world_disabled enable_fails.

End Sample.

(** ** Properties of every run

    [paths P p] holds when [P] is true of the trace and outcome of every
    way [p] can run: each call may throw or resolve to any answer. *)
Fixpoint paths {R : Type} (P : list Event -> Outcome R -> Prop) (p : Prog R)
  : Prop :=
  match p with
  | Ret r => P [] (Returned r)
  | Throw e => P [] (Raised e)
  | Do o k =>
      (forall e, P [rejected o e] (Raised e))
      /\ (forall a, paths (fun tr out => P (resolved o a :: tr) out) (k a))
  end.

(** What the [try] block hands to the caller: its own response, or the
    response of the [catch] block. *)
Definition respond (out : Outcome Response) : Response :=
  match out with
  | Returned response => response
  | Raised err => chatSetparSSO_catch err
  end.

(** The JSON errors the middleware can send. *)
Definition json_errors : list (Z * string) :=
  [(401, "Invalid SSO token payload.");
   (403, "Multi-user mode must be enabled for SSO.");
   (500, "Failed to create SSO user.");
   (500, "Failed to sync SSO user role.");
   (500, "Failed to create SSO session.");
   (401, "SSO token expired.");
   (401, "Invalid SSO token.");
   (500, "SSO authentication failed.")].

(** The request carries a token and the server has a secret. *)
Definition sso_active (env : Env) (req : Request) : bool :=
  (truthy_string (sso_token req)
   && truthy_string (CHAT_SETPAR_JWT_SECRET env))%bool.

(** A response the middleware sends itself. *)
Definition own_response (r : Response) : Prop :=
  match r with
  | Next => False
  | Json status error => In (status, error) json_errors
  | Redirect status url =>
      status = 302
      /\ exists t d, url = "/sso/simple?token=" ++ Uri.encodeURIComponent t
                           ++ "&redirectTo=" ++ Uri.encodeURIComponent d
  end.

(** What an event tells about the run. *)

(** The payload of a successful verification. *)
Definition payload_of_event (ev : Event) : option Payload :=
  match ev with
  | existT _ o a =>
      match o return JsError + resp o -> option Payload with
      | JWT_verify _ _ =>
          fun a => match a with inr p => Some p | inl _ => None end
      | _ => fun _ => None
      end a
  end.

(** The event shows multi-user mode on: the flag was read as set, or an
    enable call reported success. *)
Definition enabled_by (ev : Event) : bool :=
  match ev with
  | existT _ o a =>
      match o return JsError + resp o -> bool with
      | SystemSettings_isMultiUserMode =>
          fun a => match a with inr b => b | inl _ => false end
      | SystemSettings_updateSettings _ _ =>
          fun a => match a with inr r => success r | inl _ => false end
      | _ => fun _ => false
      end a
  end.

(** The user a store call handed back, if any. *)
Definition returned_user (ev : Event) : option User.t :=
  match ev with
  | existT _ o a =>
      match o return JsError + resp o -> option User.t with
      | User_get _ =>
          fun a => match a with inr u => u | inl _ => None end
      | User_update _ _ =>
          fun a => match a with inr r => updated_user r | inl _ => None end
      | User_filterFields _ =>
          fun a => match a with inr u => Some u | inl _ => None end
      | User_create _ _ _ =>
          fun a => match a with inr r => created_user r | inl _ => None end
      | _ => fun _ => None
      end a
  end.

Fixpoint returned_users (tr : list Event) : list User.t :=
  match tr with
  | [] => []
  | ev :: r =>
      match returned_user ev with
      | Some u => u :: returned_users r
      | None => returned_users r
      end
  end.

(** The strings [crypto.randomBytes(n).toString("hex")] produced. *)
Definition random_hex (ev : Event) : option string :=
  match ev with
  | existT _ o a =>
      match o return JsError + resp o -> option string with
      | crypto_randomBytes_hex _ =>
          fun a => match a with inr s => Some s | inl _ => None end
      | _ => fun _ => None
      end a
  end.

(** The exchange token an event issued, if it did. *)
Definition issued (ev : Event) : option (Z * IssueResult) :=
  match ev with
  | existT _ o a =>
      match o return JsError + resp o -> option (Z * IssueResult) with
      | TemporaryAuthToken_issue i =>
          fun a => match a with inr r => Some (i, r) | inl _ => None end
      | _ => fun _ => None
      end a
  end.

Definition last_event (tr : list Event) : option Event :=
  match rev tr with
  | ev :: _ => Some ev
  | [] => None
  end.

Definition is_role_update (o : Op) : bool :=
  match o with User_update _ (SetRole _) => true | _ => false end.

Definition is_verify (o : Op) : bool :=
  match o with JWT_verify _ _ => true | _ => false end.

Definition is_flag_read (o : Op) : bool :=
  match o with SystemSettings_isMultiUserMode => true | _ => false end.

Definition is_random_bytes (o : Op) : bool :=
  match o with crypto_randomBytes_hex _ => true | _ => false end.

Definition is_issue (o : Op) : bool :=
  match o with TemporaryAuthToken_issue _ => true | _ => false end.

(** A call on the user model, the random source or the exchange tokens:
    everything behind the multi-tenancy gate. *)
Definition behind_gate (o : Op) : bool :=
  match o with
  | JWT_verify _ _ | SystemSettings_isMultiUserMode
  | SystemSettings_updateSettings _ _ => false
  | _ => true
  end.

Definition count (f : Op -> bool) (l : list Op) : nat :=
  List.length (filter f l).

(** The most calls of each kind one request makes. *)
Definition within_budget (l : list Op) : bool :=
  (Nat.eqb (count is_verify l) 1
   && Nat.leb (count is_flag_read l) 1
   && Nat.leb (count settings_write l) 2
   && Nat.leb (count user_store_read l) 3
   && Nat.leb (count is_rename l) 1
   && Nat.leb (count is_role_update l) 1
   && Nat.leb (count is_random_bytes l) 1
   && Nat.leb (count is_create l) 1
   && Nat.leb (count is_issue l) 1)%bool.

(** A token is issued by the last call only. *)
Definition issue_last (l : list Op) : bool :=
  forallb (fun o => negb (is_issue o)) (removelast l).

(** The arguments of a call are the ones derived from the payload [p]. *)
Definition derived_call (p : Payload) (o : Op) : Prop :=
  match o with
  | User_get n =>
      usernameFromPayload p = Some n
      \/ n = legacyUsernameFromEmail (email p)
  | User_update _ (SetUsername n) => usernameFromPayload p = Some n
  | User_update _ (SetRole r) => r = mapSetparRoleToAnything p
  | User_create n _ r =>
      usernameFromPayload p = Some n /\ r = mapSetparRoleToAnything p
  | crypto_randomBytes_hex n => n = 32%nat
  | SystemSettings_updateSettings m c => m = true /\ c = true
  | _ => True
  end.

(** The destination carried by the redirect. *)
Definition redirect_target (req : Request) : string :=
  if (negb (JsString.is_empty (path req))
      && negb (String.eqb (path req) "/sso/simple"))%bool
  then path req else "/".

(** Characters [encodeURIComponent] can produce. *)
Definition uri_safe (c : ascii) : bool :=
  (Uri.unreserved c || Ascii.eqb c "%")%bool.

(** White space only. *)
Definition blank (s : string) : Prop := all_chars JsString.is_space s.

(** The payload [p] with another identifier. *)
Definition with_userId (p : Payload) (v : JsValue) : Payload :=
  mkPayload v (email p) (isSuperAdmin p) (isOwner p) (role p).

(** Statements about every run of the pipeline. *)

(** A redirect is backed by the exchange token issued by the last call,
    for a user the store handed back during the request. *)
Definition redirect_backed (req : Request) (tr : list Event)
    (response : Response) : Prop :=
  forall status url,
    response = Redirect status url ->
    status = 302
    /\ exists ev i res t,
         last_event tr = Some ev
         /\ issued ev = Some (i, res)
         /\ token res = Some t
         /\ JsString.is_empty t = false
         /\ truthy_string (issue_error res) = false
         /\ url = "/sso/simple?token=" ++ Uri.encodeURIComponent t
                  ++ "&redirectTo="
                  ++ Uri.encodeURIComponent (redirect_target req)
         /\ In i (map User.id (returned_users tr)).

(** A call behind the gate is preceded by a verified complete payload with
    a derivable username and by evidence that multi-user mode is on. *)
Definition gate_passed (tr : list Event) : Prop :=
  existsb behind_gate (ops tr) = true ->
  match tr with
  | ev :: rest =>
      exists p,
        payload_of_event ev = Some p
        /\ Js.truthy (userId p) = true
        /\ Js.truthy (email p) = true
        /\ usernameFromPayload p <> None
        /\ existsb enabled_by rest = true
  | [] => False
  end.

(** A 403 leaves everything behind the gate untouched. *)
Definition forbidden_clean (tr : list Event) (response : Response) : Prop :=
  forall m, response = Json 403 m ->
    Forall (fun o => behind_gate o = false) (ops tr)
    /\ existsb enabled_by tr = false.

(** Every call after the verification carries values derived from the
    verified payload, and a created user gets the random password. *)
Definition calls_derived (tr : list Event) : Prop :=
  match tr with
  | ev :: rest =>
      forall p, payload_of_event ev = Some p ->
        Forall (derived_call p) (ops rest)
        /\ (forall n pw r, In (User_create n pw r) (ops rest) ->
                           In (Some pw) (map random_hex rest))
  | [] => True
  end.

(** What a run of the bootstrapper looks like. *)
Definition bootstrap_sound (tr : list Event) (out : Outcome bool) : Prop :=
  hd_error (ops tr) = Some SystemSettings_isMultiUserMode
  /\ Forall (fun o => o = SystemSettings_updateSettings true true)
       (tl (ops tr))
  /\ (List.length tr <= 3)%nat
  /\ match out with
     | Returned b =>
         existsb enabled_by tr = b
         /\ (b = true -> option_map enabled_by (last_event tr) = Some true)
     | Raised _ => existsb enabled_by tr = false
     end.

(** What provisioning does with a user that exists. *)
Definition role_sync_only (mappedRole : string) (u : User.t)
    (tr : list Event) (out : Outcome (Response + option User.t)) : Prop :=
  Forall (fun o => o = User_update (User.id u) (SetRole mappedRole)
                   \/ exists x, o = User_filterFields x) (ops tr)
  /\ (User.role u = mappedRole -> tr = [] /\ out = Returned (inr (Some u)))
  /\ (forall r, out = Returned (inl r) ->
                r = Json 500 "Failed to sync SSO user role.")
  /\ (forall v, out = Returned (inr v) ->
                exists x, v = Some x /\ In x (u :: returned_users tr)).

(** What the resolver does. *)
Definition resolver_discipline (username legacyUsername : string)
    (tr : list Event) (out : Outcome (option User.t)) : Prop :=
  Forall (fun o => o = User_get username \/ o = User_get legacyUsername
                   \/ is_rename o = true
                   \/ exists x, o = User_filterFields x)
    (ops tr)
  /\ (forall i n, In (User_update i (SetUsername n)) (ops tr) ->
        n = username
        /\ exists legacy rest,
             tr = resolved (User_get username) None
                  :: resolved (User_get legacyUsername) (Some legacy)
                  :: resolved (User_get username) None :: rest
             /\ i = User.id legacy)
  /\ (forall u, out = Returned (Some u) -> In u (returned_users tr)).

(** The environment with the auto-enable switch unset. *)
Definition without_auto (env : Env) : Env :=
  mkEnv (CHAT_SETPAR_JWT_SECRET env) (CHAT_SETPAR_DEFAULT_MULTI_USER env) None.

(** The number of occurrences of a character. *)
Fixpoint occurrences (c : ascii) (s : string) : nat :=
  match s with
  | EmptyString => O
  | String d r => (if Ascii.eqb d c then 1 else 0) + occurrences c r
  end.

(** The URL of line 212. *)
Definition redirect_url (req : Request) (tempToken : string) : string :=
  "/sso/simple?token=" ++ Uri.encodeURIComponent tempToken
  ++ "&redirectTo=" ++ Uri.encodeURIComponent (redirect_target req).

(** More concrete worlds for the examples. *)
Module Scenario.

Definition env_auto_on : Env := mkEnv (Some "secret") None (Some "1").

Definition expired : JsError := mkError "TokenExpiredError" "jwt expired".

Definition world_expired : Mem.World :=
  Mem.mk [] true true (inl expired) 100 0 Mem.no_fault [].

Definition no_identity : Payload := payload_of (JStr "!!!") (JStr "@x.com").

Definition world_no_identity : Mem.World := Mem.init [] false no_identity.

Definition returning : User.t := User.mk 9 "setpar_u1" "default" None.

Definition world_returning : Mem.World :=
  Mem.init [returning] true Sample.u1.

Definition world_new : Mem.World := Mem.init [] true Sample.u1.

Definition long_a : Payload :=
  payload_of (JStr "abcdefghijklmnopqrstuvwxy-first") (JStr "a@x.com").

Definition long_b : Payload :=
  payload_of (JStr "ABCDEFGHIJKLMNOPQRSTUVWXY-second") (JStr "b@y.org").

End Scenario.

(** ** The container entry point

    Source: [docker/docker-entrypoint.sh].  An environment variable read as
    [${VAR:-}] is a string, empty when unset.  The programs the script
    starts ([sed], [nc], [npx], [node]) are not part of it: the host and
    port that [sed] extracts are inputs of [wait_for_postgres], and the
    exit status of a program is given by an oracle.  The warning about
    [STORAGE_DIR], the collector started beside the server block and the
    final [wait -n] are left out. *)
Module Entrypoint.

Record Vars : Type := mkVars {
  PRISMA_SCHEMA : string;
  DATABASE_URL : string
}.

(** The glob [*needle*] of a [case] pattern. *)
Fixpoint contains (needle s : string) : bool :=
  (String.prefix needle s
   || match s with
      | EmptyString => false
      | String _ r => contains needle r
      end)%bool.

(** The value of [PRISMA_SCHEMA_PATH] after lines 51-58. *)
Definition PRISMA_SCHEMA_PATH (v : Vars) : string :=
  if JsString.is_empty (PRISMA_SCHEMA v)
  then
    if negb (JsString.is_empty (DATABASE_URL v))
    then "./prisma/schema.postgres.prisma"
    else "./prisma/schema.prisma"
  else PRISMA_SCHEMA v.

(** The value of [PRISMA_DB_MODE] after lines 60-70. *)
Definition PRISMA_DB_MODE (v : Vars) : string :=
  if contains "postgres" (PRISMA_SCHEMA_PATH v) then "postgresql"
  else if negb (JsString.is_empty (DATABASE_URL v)) then "postgresql"
  else "sqlite".

(** The test of line 72: the script waits for the database. *)
Definition waits (v : Vars) : bool :=
  (String.eqb (PRISMA_DB_MODE v) "postgresql"
   && negb (JsString.is_empty (DATABASE_URL v)))%bool.

(** What a call of [wait_for_postgres] did. *)
Record Waited : Type := mkWaited {
  status : Z;
  probes : nat;
  sleeps : nat
}.

(** The loop of lines 39-45 from attempt [i] with [left] attempts to go;
    [nc i] tells whether the [i]-th probe succeeds. *)
Fixpoint probe_loop (nc : nat -> bool) (i left : nat) : Waited :=
  match left with
  | O => mkWaited 1 0 0
  | S l =>
      if nc i then mkWaited 0 1 0
      else
        let r := probe_loop nc (S i) l in
        mkWaited (status r) (S (probes r)) (S (sleeps r))
  end.

(** The port probed: line 34-36. *)
Definition port_or_default (port : string) : string :=
  if JsString.is_empty port then "5432" else port.

(** [wait_for_postgres "$connection_string"], given the host and port
    that the two [sed] commands printed. *)
Definition wait_for_postgres (connection_string host port : string)
    (nc : string -> string -> nat -> bool) : Waited :=
  if (JsString.is_empty host || String.eqb host connection_string)%bool
  then mkWaited 0 0 0
  else probe_loop (nc host (port_or_default port)) 1 60.

(** The commands of the first background block, lines 76-92. *)
Inductive Command : Type :=
| cd_server
| export_checkpoint_disable
| echo (text : string)
| prisma_generate (schema : string)
| prisma_db_push (schema : string)
| node_seed
| prisma_migrate_deploy (schema : string)
| node_server.

(** The block is one [&&] chain; the [if] inside it contributes the chain
    of the branch taken. *)
Definition server_chain (v : Vars) : list Command :=
  [cd_server; export_checkpoint_disable;
   echo ("[entrypoint] Using Prisma schema: " ++ PRISMA_SCHEMA_PATH v);
   prisma_generate (PRISMA_SCHEMA_PATH v)]
  ++ (if String.eqb (PRISMA_DB_MODE v) "postgresql"
      then [echo "[entrypoint] Applying PostgreSQL schema with prisma db push...";
            prisma_db_push (PRISMA_SCHEMA_PATH v);
            echo "[entrypoint] Running idempotent seed for system settings...";
            node_seed]
      else [echo "[entrypoint] Applying SQLite migrations with prisma migrate deploy...";
            prisma_migrate_deploy (PRISMA_SCHEMA_PATH v)])
  ++ [node_server].

(** Line 72-74 under [set -e]: a failed wait ends the script before
    anything is started. *)
Definition launches (v : Vars) (host port : string)
    (nc : string -> string -> nat -> bool) : bool :=
  if waits v
  then status (wait_for_postgres (DATABASE_URL v) host port nc) =? 0
  else true.

(** An [&&] chain runs its commands in order up to and including the first
    one that fails; the result is the list of commands run. *)
Fixpoint and_chain (ok : Command -> bool) (l : list Command) : list Command :=
  match l with
  | [] => []
  | c :: r => if ok c then c :: and_chain ok r else [c]
  end.

End Entrypoint.

(** ** Derived usernames *)

Section Strings.

Import JsString.

Lemma all_chars_nil cls : all_chars cls "".
Proof. constructor. Qed.

Lemma all_chars_cons cls c s :
  cls c = true -> all_chars cls s -> all_chars cls (String c s).
Proof. intros Hc Hs. constructor; assumption. Qed.

Lemma all_chars_inv cls c s :
  all_chars cls (String c s) -> cls c = true /\ all_chars cls s.
Proof. intros H. inversion H; subst. split; assumption. Qed.

Lemma keep_all_chars cls s : all_chars cls (keep cls s).
Proof.
  induction s as [|c r IH]; simpl.
  - apply all_chars_nil.
  - destruct (cls c) eqn:E; [apply all_chars_cons|]; assumption.
Qed.

Lemma substring0_all_chars cls n : forall s,
  all_chars cls s -> all_chars cls (substring0 n s).
Proof.
  induction n as [|n IH]; intros [|c r] H; simpl; try apply all_chars_nil.
  apply all_chars_inv in H as [Hc Hr].
  apply all_chars_cons; [assumption | apply IH; assumption].
Qed.

Lemma substring0_length n : forall s,
  (String.length (substring0 n s) <= n)%nat.
Proof.
  induction n as [|n IH]; intros [|c r]; simpl; try lia.
  specialize (IH r). lia.
Qed.

Lemma substring0_nonempty n s :
  is_empty s = false -> is_empty (substring0 (S n) s) = false.
Proof. destruct s; simpl; [discriminate | reflexivity]. Qed.

Lemma is_empty_false s : is_empty s = false -> s <> "".
Proof. destruct s; [discriminate | intros _ H; discriminate H]. Qed.

Lemma is_empty_true s : is_empty s = true -> s = "".
Proof. destruct s; [reflexivity | discriminate]. Qed.

(** Truncating a prefixed name keeps the seven characters of the prefix
    and at most 25 of what follows. *)
Lemma prefixed_truncation s :
  substring0 32 ("setpar_" ++ s) = "setpar_" ++ substring0 25 s.
Proof. reflexivity. Qed.

Lemma lower_char_not_at c :
  Ascii.eqb c "@" = false ->
  class_legacy (lower_char c) = true ->
  class_localpart (lower_char c) = true.
Proof.
  destruct c as [[] [] [] [] [] [] [] []]; vm_compute; congruence.
Qed.

Lemma class_alnum_localpart c :
  class_alnum c = true -> class_localpart c = true.
Proof. unfold class_localpart. intros ->. reflexivity. Qed.

Lemma localpart_all_chars s :
  all_chars class_localpart
    (keep class_legacy (toLowerCase (before_first "@" s))).
Proof.
  induction s as [|c r IH]; simpl.
  - apply all_chars_nil.
  - destruct (Ascii.eqb c "@") eqn:E; simpl.
    + apply all_chars_nil.
    + destruct (class_legacy (lower_char c)) eqn:L; [|assumption].
      apply all_chars_cons; [apply lower_char_not_at|]; assumption.
Qed.

Lemma all_chars_weaken (cls cls' : ascii -> bool) s :
  (forall c, cls c = true -> cls' c = true) ->
  all_chars cls s -> all_chars cls' s.
Proof. intros H A. eapply Forall_impl; [|exact A]. exact H. Qed.

Lemma legacyUsername_all_chars em :
  all_chars class_localpart (legacyUsernameFromEmail em).
Proof.
  unfold legacyUsernameFromEmail.
  apply substring0_all_chars, localpart_all_chars.
Qed.

Lemma legacyUsername_length em :
  (String.length (legacyUsernameFromEmail em) <= 32)%nat.
Proof. apply substring0_length. Qed.

Lemma stableExternalId_all_chars p :
  all_chars class_alnum (stableExternalId p).
Proof. apply keep_all_chars. Qed.

Lemma prefixed_shape cls raw :
  is_empty raw = false ->
  all_chars cls raw ->
  (String.length (substring0 32 ("setpar_" ++ raw)) <= 32)%nat
  /\ substring0 25 raw <> ""
  /\ all_chars cls (substring0 25 raw).
Proof.
  intros N A. split; [apply substring0_length|].
  split; [apply is_empty_false, substring0_nonempty, N|].
  apply substring0_all_chars, A.
Qed.

End Strings.

(** ** Runs *)

Section Runs.

Variable World : Type.
Variable handle : forall o : Op, World -> (JsError + resp o) * World.

Lemma run_bind (A B : Type) (p : Prog A) (f : A -> Prog B) : forall w,
  run handle (bind p f) w =
  match run handle p w with
  | (Returned a, w1, tr) =>
      let '(out, w2, tr') := run handle (f a) w1 in (out, w2, (tr ++ tr')%list)
  | (Raised e, w1, tr) => (Raised e, w1, tr)
  end.
Proof.
  induction p as [a|e|o k IH]; intros w; simpl.
  - destruct (run handle (f a) w) as [[out w2] tr']. reflexivity.
  - reflexivity.
  - destruct (handle o w) as [[e|a] w1]; [reflexivity|].
    rewrite IH.
    destruct (run handle (k a) w1) as [[[a'|e] w2] tr]; [|reflexivity].
    destruct (run handle (f a') w2) as [[out w3] tr']. reflexivity.
Qed.

Lemma run_call (o : Op) (w : World) :
  run handle (call o) w =
  match handle o w with
  | (inl e, w1) => (Raised e, w1, [rejected o e])
  | (inr a, w1) => (Returned a, w1, [resolved o a])
  end.
Proof. simpl. destruct (handle o w) as [[e|a] w1]; reflexivity. Qed.

End Runs.

(** ** Properties of the pure helpers *)

(** C4 as the specification states it fails: the fallback keeps the dot of
    the email local-part, which is outside [[a-z0-9_]]. *)
Lemma derived_username_charset_counterexample :
  usernameFromPayload Sample.unusable_id = Some "setpar_bob.smith"
  /\ ~ all_chars class_word "setpar_bob.smith".
Proof.
  split; [reflexivity|].
  intros H. unfold all_chars in H. rewrite Forall_forall in H.
  specialize (H "."%char). simpl in H.
  assert (class_word "." = true) as E by (apply H; tauto).
  vm_compute in E. discriminate E.
Qed.

(** C4 (amended): a derived username has at most 32 characters and is the
    prefix [setpar_] followed by a non-empty core; the core consists of
    characters of [[a-z0-9]] when it comes from the identifier and of
    [[a-z0-9._-]] when it comes from the email. *)
Theorem derived_username_shape (p : Payload) (u : string) :
  usernameFromPayload p = Some u ->
  (String.length u <= 32)%nat
  /\ exists core,
       u = "setpar_" ++ core
       /\ core <> ""
       /\ all_chars class_localpart core
       /\ (stableExternalId p <> "" -> all_chars class_alnum core).
Proof.
  unfold usernameFromPayload.
  destruct (JsString.is_empty (stableExternalId p)) eqn:E; cbn [negb].
  - destruct (JsString.is_empty (legacyUsernameFromEmail (email p))) eqn:L;
      [discriminate|].
    intros H.
    destruct (prefixed_shape L (legacyUsername_all_chars (email p))) as [Hlen [Hne Hcs]].
    assert (u = JsString.substring0 32
                  ("setpar_" ++ legacyUsernameFromEmail (email p))) as ->
      by congruence.
    split; [exact Hlen|].
    exists (JsString.substring0 25 (legacyUsernameFromEmail (email p))).
    split; [apply prefixed_truncation|].
    repeat split; try assumption.
    intros N. apply is_empty_true in E. contradiction.
  - intros H.
    destruct (prefixed_shape E (stableExternalId_all_chars p)) as [Hlen [Hne Hcs]].
    assert (u = JsString.substring0 32 ("setpar_" ++ stableExternalId p)) as ->
      by congruence.
    split; [exact Hlen|].
    exists (JsString.substring0 25 (stableExternalId p)).
    split; [apply prefixed_truncation|].
    split; [exact Hne|]. split; [|intros _; exact Hcs].
    eapply all_chars_weaken; [apply class_alnum_localpart | exact Hcs].
Qed.

Lemma derived_username_shape_witness :
  (String.length "setpar_bob.smith" <= 32)%nat
  /\ exists core,
       "setpar_bob.smith" = "setpar_" ++ core
       /\ core <> ""
       /\ all_chars class_localpart core
       /\ (stableExternalId Sample.unusable_id <> ""
           -> all_chars class_alnum core).
Proof.
  apply (derived_username_shape Sample.unusable_id). reflexivity.
Defined.

Lemma is_true_iff (v : JsValue) : Js.is_true v = true <-> v = JBool true.
Proof. destruct v as [| |[]| |]; simpl; split; congruence. Qed.

Lemma is_string_iff (v : JsValue) (s : string) :
  Js.is_string v s = true <-> v = JStr s.
Proof.
  destruct v as [| | | |t]; simpl; split; try congruence.
  - intros H. apply String.eqb_eq in H. congruence.
  - intros H. injection H as ->. apply String.eqb_refl.
Qed.

Lemma role_manager_iff (p : Payload) :
  mapSetparRoleToAnything p = "manager"
  <-> isSuperAdmin p = JBool true \/ isOwner p = JBool true
      \/ role p = JStr "superadmin".
Proof.
  unfold mapSetparRoleToAnything.
  rewrite <- !is_true_iff, <- is_string_iff.
  destruct (Js.is_true (isSuperAdmin p)), (Js.is_true (isOwner p)),
    (Js.is_string (role p) "superadmin"); cbn [orb];
    split; intros H; try reflexivity; try discriminate H; try tauto;
    destruct H as [H|[H|H]]; discriminate H.
Qed.

Lemma role_two_values (p : Payload) :
  mapSetparRoleToAnything p = "manager"
  \/ mapSetparRoleToAnything p = "default".
Proof.
  unfold mapSetparRoleToAnything.
  destruct (_ || _ || _)%bool; [left | right]; reflexivity.
Qed.

Lemma role_default_iff (p : Payload) :
  mapSetparRoleToAnything p = "default"
  <-> ~ (isSuperAdmin p = JBool true \/ isOwner p = JBool true
         \/ role p = JStr "superadmin").
Proof.
  split.
  - intros H N. apply role_manager_iff in N. rewrite N in H. discriminate H.
  - intros N. destruct (role_two_values p) as [D|D]; [|exact D].
    apply role_manager_iff in D. contradiction.
Qed.

(** C5: the role mapper yields the elevated role ["manager"] exactly when
    the super-admin flag is [true], the owner flag is [true] or the role is
    the string ["superadmin"], the standard role ["default"] for every
    other payload, and nothing else; it reads no other field. *)
Theorem role_mapper_two_roles (p : Payload) :
  (mapSetparRoleToAnything p = "manager"
   <-> isSuperAdmin p = JBool true \/ isOwner p = JBool true
       \/ role p = JStr "superadmin")
  /\ (mapSetparRoleToAnything p = "default"
      <-> ~ (isSuperAdmin p = JBool true \/ isOwner p = JBool true
             \/ role p = JStr "superadmin"))
  /\ (mapSetparRoleToAnything p = "manager"
      \/ mapSetparRoleToAnything p = "default")
  /\ (forall q, isSuperAdmin q = isSuperAdmin p -> isOwner q = isOwner p ->
                role q = role p ->
                mapSetparRoleToAnything q = mapSetparRoleToAnything p).
Proof.
  split; [apply role_manager_iff|].
  split; [apply role_default_iff|].
  split; [apply role_two_values|].
  intros q E1 E2 E3. unfold mapSetparRoleToAnything.
  rewrite E1, E2, E3. reflexivity.
Qed.

(** C9 as the specification states it fails: two payloads with the same
    identifier ["!!!"], both passing the guard on identifier and email,
    derive different usernames, because an identifier without a character
    of [[a-z0-9]] leaves the derivation to the email. *)
Lemma same_identifier_counterexample :
  userId (payload_of (JStr "!!!") (JStr "a@x.com"))
  = userId (payload_of (JStr "!!!") (JStr "b@x.com"))
  /\ Js.truthy (userId (payload_of (JStr "!!!") (JStr "a@x.com"))) = true
  /\ Js.truthy (email (payload_of (JStr "!!!") (JStr "a@x.com"))) = true
  /\ Js.truthy (email (payload_of (JStr "!!!") (JStr "b@x.com"))) = true
  /\ usernameFromPayload (payload_of (JStr "!!!") (JStr "a@x.com"))
     = Some "setpar_a"
  /\ usernameFromPayload (payload_of (JStr "!!!") (JStr "b@x.com"))
     = Some "setpar_b"
  /\ usernameFromPayload (payload_of (JStr "!!!") (JStr "a@x.com"))
     <> usernameFromPayload (payload_of (JStr "!!!") (JStr "b@x.com")).
Proof. repeat split. vm_compute. discriminate. Qed.

(** C9 (amended): the derived username depends on the payload only
    through the external identifier and the email: two payloads with the
    same identifier derive the same username when their emails are equal
    too, or when the identifier keeps at least one character of
    [[a-z0-9]], in which case it depends on the identifier alone. *)
Theorem derived_username_stable (p q : Payload) :
  userId p = userId q ->
  email p = email q \/ stableExternalId p <> "" ->
  usernameFromPayload p = usernameFromPayload q.
Proof.
  intros U H. unfold usernameFromPayload, stableExternalId in *.
  rewrite <- U.
  destruct (JsString.is_empty _) eqn:E; cbn [negb]; [|reflexivity].
  destruct H as [->|N]; [reflexivity|].
  apply is_empty_true in E. contradiction.
Qed.

Lemma derived_username_stable_witness :
  usernameFromPayload Sample.u1
  = usernameFromPayload
      (mkPayload (JStr "U1") (JStr "other@y.org") (JBool true) JNull (JStr "x")).
Proof.
  apply derived_username_stable; [reflexivity|].
  right. vm_compute. discriminate.
Defined.

(** C10: the privilege flags count only when they are the boolean [true]:
    a payload whose flags are anything else, such as the string ["true"]
    or the number [1], gets the standard role unless its role is exactly
    ["superadmin"]. *)
Theorem role_flags_strict (p : Payload) :
  isSuperAdmin p <> JBool true ->
  isOwner p <> JBool true ->
  (mapSetparRoleToAnything p = "manager" <-> role p = JStr "superadmin")
  /\ (role p <> JStr "superadmin" -> mapSetparRoleToAnything p = "default").
Proof.
  intros A O. split.
  - rewrite role_manager_iff. tauto.
  - intros R. apply role_default_iff. tauto.
Qed.

Lemma role_flags_strict_witness :
  mapSetparRoleToAnything
    (mkPayload (JStr "U1") (JStr "a@x.com") (JStr "true") (JNum 1) (JStr "admin"))
  = "default".
Proof.
  apply role_flags_strict; simpl; discriminate.
Defined.

(** ** Properties of the pipeline *)

Section Pipeline.

Variable World : Type.
Variable handle : forall o : Op, World -> (JsError + resp o) * World.

(** C7: with a valid, complete payload, the flag off and both switches
    falsy, the answer is 403 after exactly two calls, the token
    verification and the read of the flag: the user store is neither read
    nor written and the settings are not written. *)
Theorem multi_tenancy_gate_first
    (env : Env) (req : Request) (ssoToken jwtSecret : string)
    (payload : Payload) (w w1 w2 : World) :
  sso_token req = Some ssoToken ->
  JsString.is_empty ssoToken = false ->
  CHAT_SETPAR_JWT_SECRET env = Some jwtSecret ->
  JsString.is_empty jwtSecret = false ->
  handle (JWT_verify ssoToken jwtSecret) w = (inr payload, w1) ->
  Js.truthy (userId payload) = true ->
  Js.truthy (email payload) = true ->
  handle SystemSettings_isMultiUserMode w1 = (inr false, w2) ->
  isTruthyEnv (CHAT_SETPAR_DEFAULT_MULTI_USER env) = false ->
  isTruthyEnv (CHAT_SETPAR_AUTO_ENABLE_MULTI_USER env) = false ->
  exists tr,
    chatSetparSSO handle env req w
    = (Json 403 "Multi-user mode must be enabled for SSO.", w2, tr)
    /\ tr = [resolved (JWT_verify ssoToken jwtSecret) payload; read_flag false]
    /\ Forall (fun ev => store_access (op_of ev) = false) tr.
Proof.
  intros Ht Nt Hs Ns Hv Tu Te Hf Dd Da.
  eexists. split; [|split; [reflexivity|]].
  - unfold chatSetparSSO. rewrite Ht, Nt, Hs, Ns.
    unfold chatSetparSSO_try, ensureMultiUserModeEnabled, autoEnableFallback.
    cbn [run bind call]. rewrite Hv. rewrite Tu, Te. cbn [negb orb].
    cbn [run bind call]. rewrite Hf. rewrite Dd, Da. cbn [negb].
    cbn [run bind call]. reflexivity.
  - repeat constructor.
Qed.

(** C1 (amended): the derivation helper alone maps the payload
    [{email: "Bob.Smith@x.com"}] to [setpar_bob.smith], but the pipeline
    answers 401 "Invalid SSO token payload." for every verified payload
    whose identifier or email is missing or falsy, right after the
    verification and before any other call. *)
Theorem incomplete_payload_rejected
    (env : Env) (req : Request) (ssoToken jwtSecret : string)
    (payload : Payload) (w w1 : World) :
  sso_token req = Some ssoToken ->
  JsString.is_empty ssoToken = false ->
  CHAT_SETPAR_JWT_SECRET env = Some jwtSecret ->
  JsString.is_empty jwtSecret = false ->
  handle (JWT_verify ssoToken jwtSecret) w = (inr payload, w1) ->
  Js.truthy (userId payload) = false \/ Js.truthy (email payload) = false ->
  chatSetparSSO handle env req w
  = (Json 401 "Invalid SSO token payload.", w1,
     [resolved (JWT_verify ssoToken jwtSecret) payload])
  /\ usernameFromPayload Sample.email_only = Some "setpar_bob.smith".
Proof.
  intros Ht Nt Hs Ns Hv F. split; [|reflexivity].
  unfold chatSetparSSO. rewrite Ht, Nt, Hs, Ns.
  unfold chatSetparSSO_try. cbn [run bind call]. rewrite Hv.
  assert ((negb (Js.truthy (userId payload))
           || negb (Js.truthy (email payload)))%bool = true) as ->.
  { destruct F as [-> | ->]; [reflexivity|].
    cbn [negb]. apply orb_true_r. }
  reflexivity.
Qed.

(** C8 (amended): the bootstrapper reads the flag first.  If it is on,
    the result is success with no enable call.  If it is off and the
    default switch is truthy, one enable call is made and its success is
    the result.  When the default switch is falsy or its call failed, the
    auto switch decides: truthy, one more enable call is made and its
    outcome is the result; falsy, the result is failure.  So failure
    means: flag off, and each switch is falsy or its call failed. *)
Theorem bootstrapper_algorithm (env : Env) (w : World) :
  (forall w1,
      handle SystemSettings_isMultiUserMode w = (inr true, w1) ->
      run handle (ensureMultiUserModeEnabled env) w
      = (Returned true, w1, [read_flag true]))
  /\ (forall w1,
        handle SystemSettings_isMultiUserMode w = (inr false, w1) ->
        (isTruthyEnv (CHAT_SETPAR_DEFAULT_MULTI_USER env) = false ->
         isTruthyEnv (CHAT_SETPAR_AUTO_ENABLE_MULTI_USER env) = false ->
         run handle (ensureMultiUserModeEnabled env) w
         = (Returned false, w1, [read_flag false]))
        /\ (isTruthyEnv (CHAT_SETPAR_DEFAULT_MULTI_USER env) = false ->
            isTruthyEnv (CHAT_SETPAR_AUTO_ENABLE_MULTI_USER env) = true ->
            forall r1 w2,
              handle (SystemSettings_updateSettings true true) w1
              = (inr r1, w2) ->
              run handle (ensureMultiUserModeEnabled env) w
              = (Returned (success r1), w2,
                 [read_flag false; enable_attempt r1]))
        /\ (isTruthyEnv (CHAT_SETPAR_DEFAULT_MULTI_USER env) = true ->
            forall r1 w2,
              handle (SystemSettings_updateSettings true true) w1
              = (inr r1, w2) ->
              (success r1 = true ->
               run handle (ensureMultiUserModeEnabled env) w
               = (Returned true, w2, [read_flag false; enable_attempt r1]))
              /\ (success r1 = false ->
                  isTruthyEnv (CHAT_SETPAR_AUTO_ENABLE_MULTI_USER env) = false ->
                  run handle (ensureMultiUserModeEnabled env) w
                  = (Returned false, w2,
                     [read_flag false; enable_attempt r1]))
              /\ (success r1 = false ->
                  isTruthyEnv (CHAT_SETPAR_AUTO_ENABLE_MULTI_USER env) = true ->
                  forall r2 w3,
                    handle (SystemSettings_updateSettings true true) w2
                    = (inr r2, w3) ->
                    run handle (ensureMultiUserModeEnabled env) w
                    = (Returned (success r2), w3,
                       [read_flag false; enable_attempt r1;
                        enable_attempt r2])))).
Proof.
  unfold ensureMultiUserModeEnabled, autoEnableFallback, enableMultiUserMode.
  split.
  - intros w1 H. cbn [run bind call]. rewrite H. reflexivity.
  - intros w1 H. split; [|split].
    + intros D A. cbn [run bind call]. rewrite H, D, A. reflexivity.
    + intros D A r1 w2 H1. cbn [run bind call]. rewrite H, D, A.
      cbn [run bind call negb]. rewrite H1.
      destruct (success r1); reflexivity.
    + intros D r1 w2 H1. split; [|split].
      * intros S1. cbn [run bind call]. rewrite H, D.
        cbn [run bind call]. rewrite H1, S1. reflexivity.
      * intros S1 A. cbn [run bind call]. rewrite H, D.
        cbn [run bind call]. rewrite H1, S1, A. reflexivity.
      * intros S1 A r2 w3 H2. cbn [run bind call]. rewrite H, D.
        cbn [run bind call]. rewrite H1, S1, A.
        cbn [run bind call negb]. rewrite H2.
        destruct (success r2); reflexivity.
Qed.

Lemma migration_guard_true (legacyUsername username : string) :
  legacyUsername <> "" -> legacyUsername <> username ->
  (negb (JsString.is_empty legacyUsername)
   && negb (String.eqb legacyUsername username))%bool = true.
Proof.
  intros N D. apply String.eqb_neq in D. rewrite D.
  destruct legacyUsername; [contradiction | reflexivity].
Qed.

Lemma migration_guard_false (legacyUsername username : string) :
  legacyUsername = "" \/ legacyUsername = username ->
  (negb (JsString.is_empty legacyUsername)
   && negb (String.eqb legacyUsername username))%bool = false.
Proof.
  intros [-> | ->]; [reflexivity|].
  rewrite String.eqb_refl. apply andb_false_r.
Qed.

(** C3 (amended): after a primary lookup that finds no user, the
    migration step takes the email local-part, lower-cased, filtered to
    [[a-z0-9._@-]] and cut to 32 characters, with no prefix; when that
    name is non-empty and differs from the primary username, the next
    call looks it up; otherwise no further call is made and no user is
    resolved.  Rule 2 of the derivation is the prefix followed by the
    first 25 characters of that name. *)
Theorem legacy_lookup_unprefixed
    (username : string) (em : JsValue) (w w1 : World) :
  handle (User_get username) w = (inr None, w1) ->
  legacyUsernameFromEmail em
  = JsString.substring0 32
      (JsString.keep class_legacy
         (JsString.toLowerCase
            (JsString.before_first "@"
               (Js.ToString (Js.default_param em (JStr ""))))))
  /\ (legacyUsernameFromEmail em <> "" ->
      legacyUsernameFromEmail em <> username ->
      exists a out w' tr,
        run handle (resolveUser username em) w
        = (out, w',
           resolved (User_get username) None
           :: event (User_get (legacyUsernameFromEmail em)) a :: tr))
  /\ (legacyUsernameFromEmail em = ""
      \/ legacyUsernameFromEmail em = username ->
      run handle (resolveUser username em) w
      = (Returned None, w1, [resolved (User_get username) None]))
  /\ (legacyUsernameFromEmail em <> "" ->
      usernameFromPayload (payload_of JUndefined em)
      = Some ("setpar_"
              ++ JsString.substring0 25 (legacyUsernameFromEmail em))).
Proof.
  intros H. split; [reflexivity|]. split; [|split].
  - intros N D. unfold resolveUser. cbn [run bind call]. rewrite H.
    rewrite (migration_guard_true N D). cbn [run bind call].
    destruct (handle (User_get (legacyUsernameFromEmail em)) w1)
      as [[e|a] w2] eqn:G.
    + exists (inl e), (Raised e), w2, []. reflexivity.
    + destruct (run handle (migrateLegacyUser username a) w2)
        as [[out w3] tr] eqn:R.
      exists (inr a), out, w3, tr. reflexivity.
  - intros F. unfold resolveUser. cbn [run bind call]. rewrite H.
    rewrite (migration_guard_false F). reflexivity.
  - intros N. unfold usernameFromPayload, stableExternalId, payload_of.
    cbn [userId email Js.or Js.truthy Js.ToString JsString.toLowerCase
         JsString.keep JsString.is_empty negb].
    destruct (JsString.is_empty (legacyUsernameFromEmail em)) eqn:E.
    + apply is_empty_true in E. contradiction.
    + rewrite prefixed_truncation. reflexivity.
Qed.

Lemma provision_existing_no_create
    (username mappedRole : string) (u : User.t) (w : World) :
  Forall (fun ev => is_create (op_of ev) = false)
    (snd (run handle (provisionUser username mappedRole (Some u)) w)).
Proof.
  unfold provisionUser.
  destruct (negb (String.eqb (User.role u) mappedRole));
    [|cbn [run snd]; constructor].
  cbn [run bind call].
  destruct (handle (User_update (User.id u) (SetRole mappedRole)) w)
    as [[e|r] w1]; [repeat constructor|].
  destruct (updated_user r) as [updatedUser|];
    cbn [run bind call]; [|repeat constructor].
  destruct (handle (User_filterFields updatedUser) w1) as [[e|f] w2];
    repeat constructor.
Qed.

(** C6 (amended): when the primary username has a holder at the first
    lookup, the resolver returns that holder after this single read and
    the legacy user is never looked up.  When the first lookup finds
    nobody, the legacy lookup finds a user and the second lookup of the
    primary username finds a holder, the resolver returns the legacy user
    as found, after these three reads.  In both cases there is no rename
    and no error, and provisioning a resolved user creates nothing. *)
Theorem conflict_keeps_legacy
    (username : string) (em : JsValue) (legacy other : User.t) (w : World) :
  (forall w1,
      handle (User_get username) w = (inr (Some other), w1) ->
      run handle (resolveUser username em) w
      = (Returned (Some other), w1,
         [resolved (User_get username) (Some other)]))
  /\ (forall w1 w2 w3,
        handle (User_get username) w = (inr None, w1) ->
        legacyUsernameFromEmail em <> "" ->
        legacyUsernameFromEmail em <> username ->
        handle (User_get (legacyUsernameFromEmail em)) w1
        = (inr (Some legacy), w2) ->
        handle (User_get username) w2 = (inr (Some other), w3) ->
        run handle (resolveUser username em) w
        = (Returned (Some legacy), w3,
           [resolved (User_get username) None;
            resolved (User_get (legacyUsernameFromEmail em)) (Some legacy);
            resolved (User_get username) (Some other)]))
  /\ (forall mappedRole u w',
        Forall (fun ev => is_create (op_of ev) = false)
          (snd (run handle (provisionUser username mappedRole (Some u)) w'))).
Proof.
  split; [|split].
  - intros w1 H. unfold resolveUser. cbn [run bind call]. rewrite H.
    reflexivity.
  - intros w1 w2 w3 H N D HL HT.
    unfold resolveUser. cbn [run bind call]. rewrite H.
    rewrite (migration_guard_true N D). cbn [run bind call]. rewrite HL.
    unfold migrateLegacyUser. cbn [run bind call]. rewrite HT.
    reflexivity.
  - intros mappedRole u w'. apply provision_existing_no_create.
Qed.

(** When the rename of a legacy user fails, the resolver yields no user,
    exactly as when there is no legacy user at all. *)
Lemma rename_failure_resolves_nobody
    (username : string) (em : JsValue) (legacy : User.t)
    (r : UpdateResult) (w w1 w2 w3 w4 : World) :
  handle (User_get username) w = (inr None, w1) ->
  legacyUsernameFromEmail em <> "" ->
  legacyUsernameFromEmail em <> username ->
  handle (User_get (legacyUsernameFromEmail em)) w1
  = (inr (Some legacy), w2) ->
  handle (User_get username) w2 = (inr None, w3) ->
  handle (User_update (User.id legacy) (SetUsername username)) w3
  = (inr r, w4) ->
  updated_user r = None ->
  run handle (resolveUser username em) w
  = (Returned None, w4,
     [resolved (User_get username) None;
      resolved (User_get (legacyUsernameFromEmail em)) (Some legacy);
      resolved (User_get username) None;
      resolved (User_update (User.id legacy) (SetUsername username)) r]).
Proof.
  intros H N D HL HT HU F.
  unfold resolveUser. cbn [run bind call]. rewrite H.
  rewrite (migration_guard_true N D). cbn [run bind call]. rewrite HL.
  unfold migrateLegacyUser. cbn [run bind call]. rewrite HT.
  cbn [run bind call]. rewrite HU. rewrite F. reflexivity.
Qed.

(** With no user resolved, provisioning asks the store to create one
    under the given username. *)
Lemma provision_nobody_creates
    (username mappedRole pw : string) (c : CreateResult) (w w1 w2 : World) :
  handle (crypto_randomBytes_hex 32) w = (inr pw, w1) ->
  handle (User_create username pw mappedRole) w1 = (inr c, w2) ->
  run handle (provisionUser username mappedRole None) w
  = (Returned (if truthy_string (create_error c)
               then inl (Json 500 "Failed to create SSO user.")
               else inr (created_user c)),
     w2,
     [resolved (crypto_randomBytes_hex 32) pw;
      resolved (User_create username pw mappedRole) c]).
Proof.
  intros HR HC. unfold provisionUser. cbn [run bind call]. rewrite HR.
  cbn [run bind call]. rewrite HC.
  destruct (truthy_string (create_error c)); reflexivity.
Qed.

End Pipeline.

(** ** The pipeline on concrete requests *)

Lemma multi_tenancy_gate_first_witness :
  exists tr,
    chatSetparSSO Mem.handle Sample.env_off Sample.req Sample.world_disabled
    = (Json 403 "Multi-user mode must be enabled for SSO.",
       snd (Mem.handle SystemSettings_isMultiUserMode
              (snd (Mem.handle (JWT_verify "tok" "secret")
                      Sample.world_disabled))),
       tr)
    /\ tr = [resolved (JWT_verify "tok" "secret") Sample.u1; read_flag false]
    /\ Forall (fun ev => store_access (op_of ev) = false) tr.
Proof.
  apply (@multi_tenancy_gate_first _ Mem.handle Sample.env_off Sample.req
           "tok" "secret" Sample.u1 Sample.world_disabled
           (snd (Mem.handle (JWT_verify "tok" "secret") Sample.world_disabled)));
    reflexivity.
Defined.

(** C1 as the specification states it fails: a verified payload with an
    email and no identifier is answered 401 "Invalid SSO token payload." *)
Lemma email_only_payload_counterexample :
  Js.truthy (email Sample.email_only) = true
  /\ userId Sample.email_only = JUndefined
  /\ fst (fst (chatSetparSSO Mem.handle Sample.env_off Sample.req
                 Sample.world_email_only))
     = Json 401 "Invalid SSO token payload."
  /\ lookups (ops (snd (chatSetparSSO Mem.handle Sample.env_off Sample.req
                          Sample.world_email_only))) = [].
Proof. repeat split. Qed.

Lemma incomplete_payload_rejected_witness :
  chatSetparSSO Mem.handle Sample.env_off Sample.req Sample.world_email_only
  = (Json 401 "Invalid SSO token payload.",
     snd (Mem.handle (JWT_verify "tok" "secret") Sample.world_email_only),
     [resolved (JWT_verify "tok" "secret") Sample.email_only])
  /\ usernameFromPayload Sample.email_only = Some "setpar_bob.smith".
Proof.
  apply (@incomplete_payload_rejected _ Mem.handle Sample.env_off Sample.req
           "tok" "secret" Sample.email_only Sample.world_email_only);
    try reflexivity.
  left. reflexivity.
Defined.

(** C2, evaluated where the rename fails: the legacy user [bob.smith]
    exists, nobody holds [setpar_u1] and the store refuses the rename.
    The pipeline does not abort: it creates a second user under
    [setpar_u1] and redirects with an exchange token for it. *)
Theorem rename_failure_creates_user :
  fst (fst (chatSetparSSO Mem.handle Sample.env_off Sample.req
              Sample.world_rename_fails))
  = Redirect 302 "/sso/simple?token=t-100&redirectTo=%2Fworkspace%2Fa%20b"
  /\ map User.username
       (Mem.users (snd (fst (chatSetparSSO Mem.handle Sample.env_off
                               Sample.req Sample.world_rename_fails))))
     = ["bob.smith"; "setpar_u1"]
  /\ map User.id
       (Mem.users (snd (fst (chatSetparSSO Mem.handle Sample.env_off
                               Sample.req Sample.world_rename_fails))))
     = [7; 100]
  /\ filter (fun o => (is_rename o || is_create o)%bool)
       (ops (snd (chatSetparSSO Mem.handle Sample.env_off Sample.req
                    Sample.world_rename_fails)))
     = [User_update 7 (SetUsername "setpar_u1");
        User_create "setpar_u1"
          (string_of_list_ascii (repeat "a"%char 64)) "default"].
Proof. repeat split. Qed.

(** C3 as the specification states it fails: rule 2 gives
    [setpar_bob.smith] for this email, while the legacy user is looked up
    under [bob.smith]. *)
Lemma legacy_lookup_counterexample :
  usernameFromPayload (payload_of JUndefined (email Sample.u1))
  = Some "setpar_bob.smith"
  /\ lookups (ops (snd (chatSetparSSO Mem.handle Sample.env_off Sample.req
                          Sample.world_legacy)))
     = ["setpar_u1"; "bob.smith"; "setpar_u1"].
Proof. split; reflexivity. Qed.

Lemma legacy_lookup_unprefixed_witness :
  legacyUsernameFromEmail (JStr "Bob.Smith@x.com") = "bob.smith"
  /\ exists a out w' tr,
       run Mem.handle (resolveUser "setpar_u1" (JStr "Bob.Smith@x.com"))
         Sample.world_legacy
       = (out, w',
          resolved (User_get "setpar_u1") None
          :: event (User_get "bob.smith") a :: tr).
Proof.
  destruct (@legacy_lookup_unprefixed _ Mem.handle "setpar_u1"
              (JStr "Bob.Smith@x.com") Sample.world_legacy
              (snd (Mem.handle (User_get "setpar_u1") Sample.world_legacy))
              eq_refl) as [_ [H _]].
  split; [reflexivity|].
  apply H; vm_compute; discriminate.
Defined.

(** C6 as the specification states it fails: with the legacy user
    [bob.smith] and another user holding [setpar_u1] both in the store,
    the resolver returns the holder, not the legacy user. *)
Lemma conflict_returns_holder_counterexample :
  find (Mem.by_username (legacyUsernameFromEmail (email Sample.u1)))
    (Mem.users Sample.world_conflict) = Some Sample.bob
  /\ find (Mem.by_username "setpar_u1") (Mem.users Sample.world_conflict)
     = Some Sample.holder
  /\ usernameFromPayload Sample.u1 = Some "setpar_u1"
  /\ User.id Sample.holder <> User.id Sample.bob
  /\ fst (fst (run Mem.handle (resolveUser "setpar_u1" (email Sample.u1))
                 Sample.world_conflict))
     = Returned (Some Sample.holder).
Proof. repeat split. vm_compute. discriminate. Qed.

Lemma conflict_keeps_legacy_witness :
  fst (fst (run Mem.handle (resolveUser "setpar_u1" (JStr "Bob.Smith@x.com"))
              Sample.world_race))
  = Returned (Some Sample.bob)
  /\ ops (snd (run Mem.handle
                 (resolveUser "setpar_u1" (JStr "Bob.Smith@x.com"))
                 Sample.world_race))
     = [User_get "setpar_u1"; User_get "bob.smith"; User_get "setpar_u1"].
Proof.
  destruct (@conflict_keeps_legacy _ Mem.handle "setpar_u1"
              (JStr "Bob.Smith@x.com") Sample.bob Sample.holder
              Sample.world_race) as [_ [H _]].
  rewrite (H (snd (Mem.handle (User_get "setpar_u1") Sample.world_race))
             (snd (Mem.handle (User_get "bob.smith")
                     (snd (Mem.handle (User_get "setpar_u1")
                             Sample.world_race))))
             (snd (Mem.handle (User_get "setpar_u1")
                     (snd (Mem.handle (User_get "bob.smith")
                             (snd (Mem.handle (User_get "setpar_u1")
                                     Sample.world_race)))))));
    try reflexivity; vm_compute; try discriminate.
  split; reflexivity.
Defined.

(** C8 as the specification states it fails: with the default switch set,
    the auto switch unset and the single enable call failing, the result is
    failure although one switch is truthy and only one attempt was made. *)
Lemma bootstrapper_failure_counterexample :
  fst (fst (run Mem.handle (ensureMultiUserModeEnabled Sample.env_default_on)
              Sample.world_enable_fails))
  = Returned false
  /\ isTruthyEnv (CHAT_SETPAR_DEFAULT_MULTI_USER Sample.env_default_on) = true
  /\ isTruthyEnv (CHAT_SETPAR_AUTO_ENABLE_MULTI_USER Sample.env_default_on)
     = false
  /\ filter settings_write
       (ops (snd (run Mem.handle
                    (ensureMultiUserModeEnabled Sample.env_default_on)
                    Sample.world_enable_fails)))
     = [SystemSettings_updateSettings true true].
Proof. repeat split. Qed.

Lemma bootstrapper_algorithm_witness :
  run Mem.handle (ensureMultiUserModeEnabled Sample.env_default_on)
    Sample.world_enable_fails
  = (Returned false,
     snd (Mem.handle (SystemSettings_updateSettings true true)
            (snd (Mem.handle SystemSettings_isMultiUserMode
                    Sample.world_enable_fails))),
     [read_flag false;
      enable_attempt (mkSettingsResult false Mem.store_failure)]).
Proof.
  destruct (@bootstrapper_algorithm _ Mem.handle Sample.env_default_on
              Sample.world_enable_fails) as [_ H].
  destruct (H _ eq_refl) as [_ [_ H3]].
  destruct (H3 eq_refl _ _ eq_refl) as [_ [H4 _]].
  exact (H4 eq_refl eq_refl).
Defined.

(** ** Whole-run properties *)

Section EveryRun.

Variable World : Type.
Variable handle : forall o : Op, World -> (JsError + resp o) * World.

Lemma paths_run (R : Type) (p : Prog R) :
  forall (P : list Event -> Outcome R -> Prop) (w : World),
    paths P p ->
    P (snd (run handle p w)) (fst (fst (run handle p w))).
Proof.
  induction p as [r|e|o k IH]; intros P w H; simpl in *.
  - exact H.
  - exact H.
  - destruct H as [He Ha].
    destruct (handle o w) as [[e|a] w1]; simpl; [apply He|].
    specialize (IH a _ w1 (Ha a)).
    destruct (run handle (k a) w1) as [[out w2] tr]. exact IH.
Qed.

Lemma paths_weaken (R : Type) (p : Prog R) :
  forall (P Q : list Event -> Outcome R -> Prop),
    (forall tr out, P tr out -> Q tr out) -> paths P p -> paths Q p.
Proof.
  induction p as [r|e|o k IH]; intros P Q I H; simpl in *; auto.
  destruct H as [He Ha]. split; [auto|].
  intros a. eapply IH; [|apply Ha]. intros tr out. apply I.
Qed.

Lemma paths_bind (A B : Type) (p : Prog A) (f : A -> Prog B) :
  forall (P : list Event -> Outcome B -> Prop),
    paths (fun tr out =>
             match out with
             | Returned a => paths (fun tr' out' => P (tr ++ tr')%list out') (f a)
             | Raised e => P tr (Raised e)
             end) p ->
    paths P (bind p f).
Proof.
  induction p as [a|e|o k IH]; intros P H; simpl in *.
  - exact H.
  - exact H.
  - destruct H as [He Ha]. split; [exact He|].
    intros a. apply IH. exact (Ha a).
Qed.

(** The response and trace of the middleware, read off the run of its
    [try] block. *)
Lemma chatSetparSSO_active (env : Env) (req : Request) (w : World) :
  sso_active env req = true ->
  exists ssoToken jwtSecret,
    sso_token req = Some ssoToken
    /\ CHAT_SETPAR_JWT_SECRET env = Some jwtSecret
    /\ chatSetparSSO handle env req w
       = (respond (fst (fst (run handle
                               (chatSetparSSO_try env req ssoToken jwtSecret) w))),
          snd (fst (run handle
                      (chatSetparSSO_try env req ssoToken jwtSecret) w)),
          snd (run handle (chatSetparSSO_try env req ssoToken jwtSecret) w)).
Proof.
  unfold sso_active, chatSetparSSO, truthy_string.
  destruct (sso_token req) as [t|]; [|discriminate].
  destruct (CHAT_SETPAR_JWT_SECRET env) as [s|];
    [|rewrite andb_false_r; discriminate].
  intros H. apply andb_true_iff in H as [Ht Hs].
  apply negb_true_iff in Ht, Hs. rewrite Ht, Hs.
  exists t, s. split; [reflexivity|]. split; [reflexivity|].
  destruct (run handle (chatSetparSSO_try env req t s) w) as [[out w1] tr].
  reflexivity.
Qed.

Lemma chatSetparSSO_inactive (env : Env) (req : Request) (w : World) :
  sso_active env req = false ->
  chatSetparSSO handle env req w = (Next, w, []).
Proof.
  unfold sso_active, chatSetparSSO, truthy_string.
  destruct (sso_token req) as [t|]; [|reflexivity].
  destruct (JsString.is_empty t); [reflexivity|].
  destruct (CHAT_SETPAR_JWT_SECRET env) as [s|]; [|reflexivity].
  destruct (JsString.is_empty s); [reflexivity | discriminate].
Qed.

End EveryRun.

(** ** More on the pure helpers *)

Section Normalisation.

Import JsString.

Lemma all_chars_app cls s t :
  all_chars cls s -> all_chars cls t -> all_chars cls (s ++ t).
Proof.
  induction s as [|c r IH]; simpl; intros Hs Ht; [exact Ht|].
  apply all_chars_inv in Hs as [Hc Hr].
  apply all_chars_cons; auto.
Qed.

Lemma trimStart_blank pre s : blank pre -> trimStart (pre ++ s) = trimStart s.
Proof.
  induction pre as [|c r IH]; intros B; [reflexivity|].
  apply all_chars_inv in B as [Hc Hr]. simpl. rewrite Hc. auto.
Qed.

Lemma trimEnd_blank post : blank post -> trimEnd post = "".
Proof.
  induction post as [|c r IH]; intros B; [reflexivity|].
  apply all_chars_inv in B as [Hc Hr]. simpl. rewrite (IH Hr), Hc.
  reflexivity.
Qed.

Lemma trimEnd_app_blank s post :
  blank post -> trimEnd (s ++ post) = trimEnd s.
Proof.
  intros B. induction s as [|c r IH]; simpl.
  - apply trimEnd_blank, B.
  - rewrite IH. reflexivity.
Qed.

Lemma trim_app_blank s post :
  blank post -> trimEnd (trimStart (s ++ post)) = trimEnd (trimStart s).
Proof.
  intros B. induction s as [|c r IH].
  - simpl. replace (trimStart post) with ""; [reflexivity|].
    clear - B. induction post as [|c r IH]; [reflexivity|].
    apply all_chars_inv in B as [Hc Hr]. simpl. rewrite Hc. auto.
  - change ((String c r) ++ post) with (String c (r ++ post)).
    cbn [trimStart]. destruct (is_space c); [exact IH|].
    change (String c (r ++ post)) with ((String c r) ++ post).
    apply trimEnd_app_blank, B.
Qed.

Lemma trim_padding pre s post :
  blank pre -> blank post -> trim (pre ++ s ++ post) = trim s.
Proof.
  intros Bp Bq. unfold trim. rewrite trimStart_blank by exact Bp.
  apply trim_app_blank, Bq.
Qed.

Lemma lower_char_idem c : lower_char (lower_char c) = lower_char c.
Proof. destruct c as [[] [] [] [] [] [] [] []]; reflexivity. Qed.

Lemma lower_char_space c : is_space (lower_char c) = is_space c.
Proof. destruct c as [[] [] [] [] [] [] [] []]; reflexivity. Qed.

Lemma toLowerCase_idem s : toLowerCase (toLowerCase s) = toLowerCase s.
Proof.
  induction s as [|c r IH]; simpl; [reflexivity|].
  rewrite lower_char_idem, IH. reflexivity.
Qed.

Lemma toLowerCase_app s t :
  toLowerCase (s ++ t) = toLowerCase s ++ toLowerCase t.
Proof. induction s as [|c r IH]; simpl; [|rewrite IH]; reflexivity. Qed.

Lemma keep_app cls s t : keep cls (s ++ t) = keep cls s ++ keep cls t.
Proof.
  induction s as [|c r IH]; simpl; [reflexivity|].
  destruct (cls c); simpl; rewrite IH; reflexivity.
Qed.

Lemma toLowerCase_trimStart s :
  toLowerCase (trimStart s) = trimStart (toLowerCase s).
Proof.
  induction s as [|c r IH]; simpl; [reflexivity|].
  rewrite lower_char_space. destruct (is_space c); [exact IH | reflexivity].
Qed.

Lemma toLowerCase_trimEnd s :
  toLowerCase (trimEnd s) = trimEnd (toLowerCase s).
Proof.
  induction s as [|c r IH]; simpl; [reflexivity|].
  rewrite <- IH, lower_char_space.
  destruct (trimEnd r) as [|c' r']; simpl.
  - destruct (is_space c); reflexivity.
  - reflexivity.
Qed.

Lemma toLowerCase_trim s : toLowerCase (trim s) = trim (toLowerCase s).
Proof.
  unfold trim. rewrite toLowerCase_trimEnd, toLowerCase_trimStart.
  reflexivity.
Qed.

Lemma before_first_app sep l d :
  before_first sep (l ++ String sep d) = before_first sep l.
Proof.
  induction l as [|c r IH]; simpl.
  - rewrite Ascii.eqb_refl. reflexivity.
  - destruct (Ascii.eqb c sep); [reflexivity | rewrite IH; reflexivity].
Qed.

End Normalisation.

(** X1: white space around a switch value does not matter, and a value of
    white space only is falsy. *)
Theorem isTruthyEnv_padding (pre v post : string) :
  blank pre -> blank post ->
  isTruthyEnv (Some (pre ++ v ++ post)) = isTruthyEnv (Some v)
  /\ isTruthyEnv (Some (pre ++ post)) = false.
Proof.
  intros Bp Bq. unfold isTruthyEnv. split.
  - rewrite trim_padding by assumption. reflexivity.
  - change (pre ++ post) with (pre ++ "" ++ post).
    rewrite trim_padding by assumption. reflexivity.
Qed.

(** X2: a switch value is read without regard to case: two values with
    the same lower-case form are both truthy or both falsy. *)
Theorem isTruthyEnv_case (u v : string) :
  JsString.toLowerCase u = JsString.toLowerCase v ->
  isTruthyEnv (Some u) = isTruthyEnv (Some v).
Proof.
  intros E. unfold isTruthyEnv. rewrite !toLowerCase_trim, E. reflexivity.
Qed.

(** X3: the legacy username ignores everything from the first [@] on, so
    the same local-part at any domain gives the same name; for every email
    value it has at most 32 characters, all in [[a-z0-9._-]]. *)
Theorem legacy_username_local_part (l d : string) (em : JsValue) :
  legacyUsernameFromEmail (JStr (l ++ "@" ++ d))
  = legacyUsernameFromEmail (JStr l)
  /\ (String.length (legacyUsernameFromEmail em) <= 32)%nat
  /\ all_chars class_localpart (legacyUsernameFromEmail em).
Proof.
  split; [|split].
  - unfold legacyUsernameFromEmail. cbn [Js.default_param Js.ToString].
    change (l ++ "@" ++ d) with (l ++ String "@" d).
    rewrite before_first_app. reflexivity.
  - apply legacyUsername_length.
  - apply legacyUsername_all_chars.
Qed.

Section Identifier.

Import JsString.

Lemma keep_skip cls s1 c s2 :
  cls (lower_char c) = false ->
  keep cls (toLowerCase (s1 ++ String c s2)) = keep cls (toLowerCase (s1 ++ s2)).
Proof.
  intros N. rewrite !toLowerCase_app, !keep_app. simpl. rewrite N.
  reflexivity.
Qed.

Lemma stableExternalId_string p s :
  stableExternalId (with_userId p (JStr s)) = keep class_alnum (toLowerCase s).
Proof.
  unfold stableExternalId, with_userId, Js.or. cbn [userId Js.truthy].
  destruct s; reflexivity.
Qed.

Lemma username_from_core p q :
  email p = email q ->
  stableExternalId p = stableExternalId q ->
  usernameFromPayload p = usernameFromPayload q.
Proof.
  intros E S. unfold usernameFromPayload. rewrite S, E. reflexivity.
Qed.

End Identifier.

(** X4: the derived username ignores the case of a string identifier and
    every character of it whose lower-case form is outside [[a-z0-9]]:
    identifiers that differ only there get the same username. *)
Theorem identifier_case_and_punctuation (p : Payload) (s1 s2 : string) (c : ascii) :
  usernameFromPayload (with_userId p (JStr (JsString.toLowerCase s1)))
  = usernameFromPayload (with_userId p (JStr s1))
  /\ (class_alnum (JsString.lower_char c) = false ->
      usernameFromPayload (with_userId p (JStr (s1 ++ String c s2)))
      = usernameFromPayload (with_userId p (JStr (s1 ++ s2)))).
Proof.
  split.
  - apply username_from_core; [reflexivity|].
    rewrite !stableExternalId_string, toLowerCase_idem. reflexivity.
  - intros N. apply username_from_core; [reflexivity|].
    rewrite !stableExternalId_string. apply keep_skip, N.
Qed.

(** X5: two payloads whose normalised identifiers agree on their first 25
    characters derive the same username, whatever follows and whatever
    their emails. *)
Theorem identifier_truncation_collision (p q : Payload) :
  stableExternalId p <> "" ->
  stableExternalId q <> "" ->
  JsString.substring0 25 (stableExternalId p)
  = JsString.substring0 25 (stableExternalId q) ->
  usernameFromPayload p = usernameFromPayload q.
Proof.
  intros Np Nq E. unfold usernameFromPayload.
  destruct (JsString.is_empty (stableExternalId p)) eqn:Ep;
    [apply is_empty_true in Ep; contradiction|].
  destruct (JsString.is_empty (stableExternalId q)) eqn:Eq;
    [apply is_empty_true in Eq; contradiction|].
  cbn [negb]. rewrite !prefixed_truncation, E. reflexivity.
Qed.

Section UriFacts.

Lemma all_chars_forallb cls s :
  forallb cls (JsString.chars s) = true -> all_chars cls s.
Proof.
  intros H. unfold all_chars. rewrite Forall_forall.
  rewrite forallb_forall in H. exact H.
Qed.

Lemma encode_char_safe c : all_chars uri_safe (Uri.encode_char c).
Proof.
  apply all_chars_forallb.
  destruct c as [[] [] [] [] [] [] [] []]; vm_compute; reflexivity.
Qed.

Lemma encode_char_unreserved c :
  Uri.unreserved c = true -> Uri.encode_char c = String c "".
Proof. unfold Uri.encode_char. intros ->. reflexivity. Qed.

End UriFacts.

Lemma encodeURIComponent_safe (s : string) :
  all_chars uri_safe (Uri.encodeURIComponent s).
Proof.
  induction s as [|c r IH]; simpl; [apply all_chars_nil|].
  apply all_chars_app; [apply encode_char_safe | exact IH].
Qed.

Lemma occurrences_app c s t :
  occurrences c (s ++ t) = (occurrences c s + occurrences c t)%nat.
Proof.
  induction s as [|d r IH]; simpl; [reflexivity|]. rewrite IH. lia.
Qed.

Lemma occurrences_safe c s :
  uri_safe c = false -> all_chars uri_safe s -> occurrences c s = O.
Proof.
  intros N. induction s as [|d r IH]; intros A; [reflexivity|].
  apply all_chars_inv in A as [Hd Hr]. simpl.
  destruct (Ascii.eqb d c) eqn:E.
  - apply Ascii.eqb_eq in E. subst d. congruence.
  - rewrite (IH Hr). reflexivity.
Qed.

Lemma redirect_target_cases (req : Request) :
  redirect_target req <> "/sso/simple"
  /\ redirect_target req <> ""
  /\ (path req <> "" -> path req <> "/sso/simple" ->
      redirect_target req = path req)
  /\ (path req = "" \/ path req = "/sso/simple" -> redirect_target req = "/").
Proof.
  unfold redirect_target.
  destruct (JsString.is_empty (path req)) eqn:E; cbn [negb andb].
  - apply is_empty_true in E.
    repeat split; try discriminate; auto. intros N. contradiction.
  - destruct (String.eqb (path req) "/sso/simple") eqn:Q; cbn [negb].
    + repeat split; try discriminate; auto.
      intros _ N. apply String.eqb_eq in Q. contradiction.
    + apply String.eqb_neq in Q. apply is_empty_false in E.
      repeat split; auto. intros [F|F]; contradiction.
Qed.

(** X22: the redirect never points back at [/sso/simple]: the destination
    is the request path, or [/] when the path is empty or is the exchange
    endpoint.  Whatever the token and the path contain, the URL has the one
    [?], the one [&] and the two [=] of its template and no [#]. *)
Theorem redirect_url_shape (req : Request) (tempToken : string) :
  redirect_target req <> "/sso/simple"
  /\ redirect_target req <> ""
  /\ (path req <> "" -> path req <> "/sso/simple" ->
      redirect_target req = path req)
  /\ (path req = "" \/ path req = "/sso/simple" -> redirect_target req = "/")
  /\ occurrences "?" (redirect_url req tempToken) = 1%nat
  /\ occurrences "&" (redirect_url req tempToken) = 1%nat
  /\ occurrences "=" (redirect_url req tempToken) = 2%nat
  /\ occurrences "#" (redirect_url req tempToken) = 0%nat.
Proof.
  destruct (redirect_target_cases req) as [A [B [C D]]].
  repeat (split; [assumption|]).
  assert (forall c, uri_safe c = false ->
            occurrences c (redirect_url req tempToken)
            = (occurrences c "/sso/simple?token="
               + occurrences c "&redirectTo=")%nat) as O.
  { intros c N. unfold redirect_url.
    set (T := Uri.encodeURIComponent tempToken).
    set (U := Uri.encodeURIComponent (redirect_target req)).
    rewrite (occurrences_app c "/sso/simple?token=" (T ++ "&redirectTo=" ++ U)).
    rewrite (occurrences_app c T ("&redirectTo=" ++ U)).
    rewrite (occurrences_app c "&redirectTo=" U).
    subst T U.
    rewrite (@occurrences_safe c _ N (encodeURIComponent_safe tempToken)).
    rewrite (@occurrences_safe c _ N
               (encodeURIComponent_safe (redirect_target req))).
    lia. }
  rewrite !O by reflexivity.
  repeat split; reflexivity.
Qed.

(** ** Every run of the pipeline *)

Ltac unfold_stages :=
  unfold chatSetparSSO_try, ensureMultiUserModeEnabled, autoEnableFallback,
    ensureSetparDefaultMultiUserMode,
    enableMultiUserMode, resolveUser, migrateLegacyUser, provisionUser,
    sessionBridge.

Ltac bool_atom b :=
  lazymatch b with
  | negb ?a => bool_atom a
  | (?a || _)%bool => bool_atom a
  | (?a && _)%bool => bool_atom a
  | _ => b
  end.

Ltac scrutinee p :=
  lazymatch p with
  | bind ?q _ => scrutinee q
  | if ?b then _ else _ => bool_atom b
  | match ?x with _ => _ end => x
  end.

Ltac walk_step :=
  match goal with
  | |- _ /\ _ => split
  | |- forall _, _ => intro
  | |- paths _ (Do _ _) => cbn [paths]
  | |- paths _ _ => progress cbn [bind call negb orb andb]
  | |- paths _ _ => progress cbv zeta
  | |- paths _ ?p =>
      let x := scrutinee p in
      tryif is_constructor x then fail else destruct x eqn:?
  | |- paths _ _ => progress unfold_stages
  end.

Ltac walk := repeat walk_step; cbn [paths].


Lemma catch_cases (e : JsError) :
  chatSetparSSO_catch e = Json 401 "SSO token expired."
  \/ chatSetparSSO_catch e = Json 401 "Invalid SSO token."
  \/ chatSetparSSO_catch e = Json 500 "SSO authentication failed.".
Proof.
  unfold chatSetparSSO_catch.
  destruct (name e =? "TokenExpiredError")%string; [tauto|].
  destruct (name e =? "JsonWebTokenError")%string; tauto.
Qed.

Lemma catch_own (e : JsError) : own_response (chatSetparSSO_catch e).
Proof.
  destruct (catch_cases e) as [-> | [-> | ->]]; simpl; tauto.
Qed.

Lemma catch_not_redirect (e : JsError) (status : Z) (url : string) :
  chatSetparSSO_catch e <> Redirect status url.
Proof. destruct (catch_cases e) as [-> | [-> | ->]]; discriminate. Qed.

Lemma catch_not_403 (e : JsError) (m : string) :
  chatSetparSSO_catch e <> Json 403 m.
Proof. destruct (catch_cases e) as [-> | [-> | ->]]; discriminate. Qed.

Ltac rewrite_scrutinees :=
  repeat match goal with
         | H : ?l = _ |- context [match ?l with _ => _ end] => rewrite H
         end.

Ltac use_flags :=
  repeat match goal with
         | H : success _ = _ |- _ => rewrite H
         end.

Ltac pick_create :=
  repeat match goal with
         | H : _ \/ _ |- _ => destruct H as [H|H]
         | H : False |- _ => destruct H
         | H : _ = User_create _ _ _ |- _ =>
             first [discriminate H | injection H as <- <- <-]
         end.

Ltac pick_rename :=
  repeat match goal with
         | H : _ \/ _ |- _ => destruct H as [H|H]
         | H : False |- _ => destruct H
         | H : _ = User_update _ _ |- _ =>
             first [discriminate H | injection H as <- <-]
         end.

Lemma try_own (env : Env) (req : Request) (t s : string) :
  paths (fun tr out => own_response (respond out))
    (chatSetparSSO_try env req t s).
Proof.
  walk.
  all: try apply catch_own.
  all: try (cbn; tauto).
  all: unfold own_response, respond; split; [reflexivity|];
    do 2 eexists; reflexivity.
Qed.

Lemma try_budget (env : Env) (req : Request) (t s : string) :
  paths (fun tr out =>
           hd_error (ops tr) = Some (JWT_verify t s)
           /\ within_budget (ops tr) = true
           /\ issue_last (ops tr) = true)
    (chatSetparSSO_try env req t s).
Proof.
  walk.
  all: repeat split; reflexivity.
Qed.

Lemma try_redirect (env : Env) (req : Request) (t s : string) :
  paths (fun tr out => redirect_backed req tr (respond out))
    (chatSetparSSO_try env req t s).
Proof.
  walk.
  all: unfold redirect_backed, respond; intros status url E;
    try (exfalso; eapply catch_not_redirect; eassumption);
    try discriminate E.
  all: injection E as <- <-; split; [reflexivity|];
    eexists _, _, _, _; repeat split; try reflexivity; try eassumption;
    unfold resolved, event; cbn [returned_users returned_user];
    rewrite_scrutinees; cbn [map In]; tauto.
Qed.

Lemma try_gate (env : Env) (req : Request) (t s : string) :
  paths (fun tr _ => gate_passed tr) (chatSetparSSO_try env req t s).
Proof.
  walk.
  all: unfold gate_passed; intros G; try discriminate G.
  all: eexists; repeat split; try eassumption; try congruence;
    cbn [existsb enabled_by resolved rejected event]; use_flags;
    rewrite ?orb_true_r; reflexivity.
Qed.

Lemma try_forbidden (env : Env) (req : Request) (t s : string) :
  paths (fun tr out => forbidden_clean tr (respond out))
    (chatSetparSSO_try env req t s).
Proof.
  walk.
  all: unfold forbidden_clean, respond; intros m E;
    try (exfalso; eapply catch_not_403; eassumption); try discriminate E.
  all: split; [repeat constructor|];
    cbn [existsb enabled_by resolved rejected event]; use_flags;
    reflexivity.
Qed.

Lemma try_derived (env : Env) (req : Request) (t s : string) :
  paths (fun tr _ => calls_derived tr) (chatSetparSSO_try env req t s).
Proof.
  walk.
  all: unfold calls_derived; intros p E; cbn in E; try discriminate E;
    injection E as <-.
  all: split;
    [ cbn [ops map op_of projT1 resolved rejected event];
      repeat (first [apply Forall_nil | apply Forall_cons]);
      cbn [derived_call]; auto
    | intros n pw r I; cbn in I; pick_create; cbn; tauto ].
Qed.

Lemma bootstrapper_paths (env : Env) :
  paths bootstrap_sound (ensureMultiUserModeEnabled env).
Proof.
  walk.
  all: unfold bootstrap_sound;
    cbn [ops map op_of projT1 resolved rejected event hd_error tl List.length
         existsb enabled_by last_event rev app option_map];
    use_flags; repeat split; try reflexivity; try discriminate;
    try (repeat constructor; fail); try lia.
Qed.

Lemma provision_existing_paths (username mappedRole : string) (u : User.t) :
  paths (role_sync_only mappedRole u)
    (provisionUser username mappedRole (Some u)).
Proof.
  walk.
  all: unfold role_sync_only, resolved, rejected, event;
    cbn [ops map op_of projT1].
  all: split;
    [ repeat (first [apply Forall_nil | apply Forall_cons]); eauto
    | split;
      [ intros E;
        first [ split; reflexivity
              | match goal with
                | H : (_ =? _)%string = false |- _ =>
                    apply String.eqb_neq in H; contradiction
                end ]
      | split;
        [ intros r E; first [discriminate E | injection E as <-; reflexivity]
        | intros v E; first
            [ discriminate E
            | injection E as <-; eexists; split; [reflexivity|];
              cbn [returned_users returned_user];
              rewrite_scrutinees; cbn [In]; tauto ] ] ] ].
Qed.

Lemma resolver_paths (username : string) (em : JsValue) :
  paths (resolver_discipline username (legacyUsernameFromEmail em))
    (resolveUser username em).
Proof.
  walk.
  all: unfold resolver_discipline, resolved, rejected, event;
    cbn [ops map op_of projT1].
  all: split;
    [ repeat (first [apply Forall_nil | apply Forall_cons]);
      cbn [is_rename]; eauto
    | split;
      [ intros i n I; cbn [In] in I; pick_rename;
        try (split; [reflexivity|]; eexists _, _; split; reflexivity)
      | intros u E; first
          [ discriminate E
          | injection E as <-;
            cbn [returned_users returned_user];
            rewrite_scrutinees; cbn [In]; tauto ] ] ].
Qed.

Section EveryRequest.

Variable World : Type.
Variable handle : forall o : Op, World -> (JsError + resp o) * World.

Lemma every_request (P : list Event -> Outcome Response -> Prop)
    (env : Env) (req : Request) (w : World) :
  (forall t s, paths P (chatSetparSSO_try env req t s)) ->
  sso_active env req = true ->
  exists t s out,
    sso_token req = Some t
    /\ CHAT_SETPAR_JWT_SECRET env = Some s
    /\ fst (fst (chatSetparSSO handle env req w)) = respond out
    /\ P (snd (chatSetparSSO handle env req w)) out.
Proof.
  intros H A.
  destruct (chatSetparSSO_active handle env req w A) as [t [s [Ht [Hs E]]]].
  exists t, s, (fst (fst (run handle (chatSetparSSO_try env req t s) w))).
  rewrite E. cbn [fst snd]. repeat split; try assumption.
  apply paths_run, H.
Qed.

(** X8: the middleware hands the request on ([Next]) exactly when the
    token or the secret is missing or empty, and then makes no call.  In
    every other case it answers itself, with a 302 redirect to
    [/sso/simple?token=...&redirectTo=...] or with one of eight JSON
    errors of status 401, 403 or 500. *)
Theorem responses_enumerated (env : Env) (req : Request) (w : World) :
  if sso_active env req
  then own_response (fst (fst (chatSetparSSO handle env req w)))
  else chatSetparSSO handle env req w = (Next, w, []).
Proof.
  destruct (sso_active env req) eqn:A.
  - destruct (every_request w (fun t s => try_own env req t s) A)
      as [t [s [out [_ [_ [E P]]]]]].
    rewrite E. exact P.
  - apply chatSetparSSO_inactive, A.
Qed.

(** X9: a request that carries a token, on a server with a secret, first
    verifies exactly that token with that secret, and makes at most one
    read of the flag, two settings writes, three user lookups, one rename,
    one role update, one password draw, one creation and one token issue;
    a token issue is always the last call. *)
Theorem call_budget (env : Env) (req : Request) (w : World) :
  sso_active env req = true ->
  exists t s,
    sso_token req = Some t
    /\ CHAT_SETPAR_JWT_SECRET env = Some s
    /\ hd_error (ops (snd (chatSetparSSO handle env req w)))
       = Some (JWT_verify t s)
    /\ within_budget (ops (snd (chatSetparSSO handle env req w))) = true
    /\ issue_last (ops (snd (chatSetparSSO handle env req w))) = true.
Proof.
  intros A.
  destruct (chatSetparSSO_active handle env req w A) as [t [s [Ht [Hs E]]]].
  exists t, s. rewrite E. cbn [fst snd].
  split; [exact Ht|]. split; [exact Hs|].
  apply (paths_run handle (chatSetparSSO_try env req t s) _ w
           (try_budget env req t s)).
Qed.

(** X10: a redirect is only sent with status 302 after the last call
    issued an exchange token that is non-empty and came without error; the
    token is bound to the id of a user the store returned during this
    request, and the URL carries this token and the redirect target. *)
Theorem redirect_needs_issued_token (env : Env) (req : Request) (w : World) :
  redirect_backed req (snd (chatSetparSSO handle env req w))
    (fst (fst (chatSetparSSO handle env req w))).
Proof.
  destruct (sso_active env req) eqn:A.
  - destruct (every_request w (fun t s => try_redirect env req t s) A)
      as [t [s [out [_ [_ [E P]]]]]].
    rewrite E. exact P.
  - rewrite (chatSetparSSO_inactive handle env req w A).
    intros status url F. discriminate F.
Qed.

(** X11: after a successful verification every call carries values
    derived from the verified payload: a lookup is for the derived or the
    legacy username, a rename or a creation is to the derived username, a
    role written is the mapped role, settings are written to [true] and
    [true], 32 random bytes are drawn, and the password of a created user
    is the string the random source returned. *)
Theorem calls_use_derived_values (env : Env) (req : Request) (w : World) :
  calls_derived (snd (chatSetparSSO handle env req w)).
Proof.
  destruct (sso_active env req) eqn:A.
  - destruct (every_request w (fun t s => try_derived env req t s) A)
      as [t [s [out [_ [_ [E P]]]]]].
    exact P.
  - rewrite (chatSetparSSO_inactive handle env req w A). exact I.
Qed.

(** X12: a call on the user model, the random source or the exchange
    tokens is only made after the first call verified a payload with a
    truthy identifier and email from which a username can be derived, and
    after the flag was read as set or an enable call reported success. *)
Theorem gate_before_users (env : Env) (req : Request) (w : World) :
  gate_passed (snd (chatSetparSSO handle env req w)).
Proof.
  destruct (sso_active env req) eqn:A.
  - destruct (every_request w (fun t s => try_gate env req t s) A)
      as [t [s [out [_ [_ [E P]]]]]].
    exact P.
  - rewrite (chatSetparSSO_inactive handle env req w A).
    intros F. discriminate F.
Qed.

(** X13: a 403 answer means that no call reached the user model, the
    random source or the exchange tokens, and that neither the flag read
    nor any enable call showed multi-user mode on. *)
Theorem forbidden_means_untouched (env : Env) (req : Request) (w : World) :
  forbidden_clean (snd (chatSetparSSO handle env req w))
    (fst (fst (chatSetparSSO handle env req w))).
Proof.
  destruct (sso_active env req) eqn:A.
  - destruct (every_request w (fun t s => try_forbidden env req t s) A)
      as [t [s [out [_ [_ [E P]]]]]].
    rewrite E. exact P.
  - rewrite (chatSetparSSO_inactive handle env req w A).
    intros m F. discriminate F.
Qed.

(** X7: every run of the bootstrapper starts with the read of the flag,
    makes only enable calls after it, each setting both flags, and at most
    two of them.  It returns [true] exactly when the flag was read as set
    or an enable call reported success, and then this is its last call;
    when it throws, nothing showed multi-user mode on. *)
Theorem bootstrapper_sound (env : Env) (w : World) :
  bootstrap_sound (snd (run handle (ensureMultiUserModeEnabled env) w))
    (fst (fst (run handle (ensureMultiUserModeEnabled env) w))).
Proof. apply paths_run, bootstrapper_paths. Qed.

(** X19: the resolver only looks up the derived and the legacy username,
    renames and filters.  A rename is attempted only to the derived
    username, for the id of the legacy user found by the second lookup,
    and after both lookups of the derived username found nobody.  A user
    it returns is one a call handed back. *)
Theorem resolver_every_run (username : string) (em : JsValue) (w : World) :
  resolver_discipline username (legacyUsernameFromEmail em)
    (snd (run handle (resolveUser username em) w))
    (fst (fst (run handle (resolveUser username em) w))).
Proof. apply paths_run, resolver_paths. Qed.

(** X20: for a user that exists, provisioning writes nothing but the
    role: its only store call is the update of that user's role to the
    mapped role, and there is none when the role already matches.  The
    only error it answers is 500 "Failed to sync SSO user role."; the user
    it passes on is the one given or one a call returned. *)
Theorem existing_user_only_role_synced
    (username mappedRole : string) (u : User.t) (w : World) :
  role_sync_only mappedRole u
    (snd (run handle (provisionUser username mappedRole (Some u)) w))
    (fst (fst (run handle (provisionUser username mappedRole (Some u)) w))).
Proof. apply paths_run, provision_existing_paths. Qed.

(** X6: the boot-time function behaves, in every world, exactly as the
    request-time bootstrapper does with the auto-enable switch unset. *)
Theorem boot_default_is_request_without_auto (env : Env) (w : World) :
  run handle (ensureSetparDefaultMultiUserMode env) w
  = run handle (ensureMultiUserModeEnabled (without_auto env)) w.
Proof.
  unfold ensureSetparDefaultMultiUserMode, ensureMultiUserModeEnabled,
    autoEnableFallback, enableMultiUserMode, without_auto.
  cbn [run bind call CHAT_SETPAR_DEFAULT_MULTI_USER
       CHAT_SETPAR_AUTO_ENABLE_MULTI_USER isTruthyEnv negb].
  destruct (handle SystemSettings_isMultiUserMode w) as [[e|[|]] w1];
    try reflexivity.
  destruct (isTruthyEnv (CHAT_SETPAR_DEFAULT_MULTI_USER env));
    cbn [run bind call negb]; [|reflexivity].
  destruct (handle (SystemSettings_updateSettings true true) w1)
    as [[e|r] w2]; [reflexivity|].
  destruct (success r); reflexivity.
Qed.

Lemma run_try_verified (env : Env) (req : Request) (t s : string)
    (p : Payload) (w w1 : World) :
  handle (JWT_verify t s) w = (inr p, w1) ->
  Js.truthy (userId p) = true ->
  Js.truthy (email p) = true ->
  run handle (chatSetparSSO_try env req t s) w
  = match run handle (ensureMultiUserModeEnabled env) w1 with
    | (Returned true, w2, tr) =>
        match usernameFromPayload p with
        | None => (Returned (Json 401 "Invalid SSO token payload."), w2,
                   resolved (JWT_verify t s) p :: tr)
        | Some username =>
            let '(out, w3, tr') :=
              run handle
                (user <- resolveUser username (email p) ;;
                 provisioned <-
                   provisionUser username (mapSetparRoleToAnything p) user ;;
                 match provisioned with
                 | inl response => Ret response
                 | inr user' => sessionBridge req user'
                 end) w2 in
            (out, w3, resolved (JWT_verify t s) p :: (tr ++ tr')%list)
        end
    | (Returned false, w2, tr) =>
        (Returned (Json 403 "Multi-user mode must be enabled for SSO."), w2,
         resolved (JWT_verify t s) p :: tr)
    | (Raised e, w2, tr) => (Raised e, w2, resolved (JWT_verify t s) p :: tr)
    end.
Proof.
  intros Hv Tu Te. unfold chatSetparSSO_try.
  cbn [run bind call]. rewrite Hv, Tu, Te. cbn [negb orb].
  rewrite run_bind.
  destruct (run handle (ensureMultiUserModeEnabled env) w1)
    as [[[[|]|e] w2] tr]; cbn [negb run]; try reflexivity.
  - destruct (usernameFromPayload p) as [username|].
    + destruct (run handle _ w2) as [[out w3] tr']. reflexivity.
    + cbn [run]. rewrite app_nil_r. reflexivity.
  - rewrite app_nil_r. reflexivity.
Qed.

Lemma chatSetparSSO_run (env : Env) (req : Request) (t s : string) (w : World) :
  sso_token req = Some t -> JsString.is_empty t = false ->
  CHAT_SETPAR_JWT_SECRET env = Some s -> JsString.is_empty s = false ->
  chatSetparSSO handle env req w
  = (respond (fst (fst (run handle (chatSetparSSO_try env req t s) w))),
     snd (fst (run handle (chatSetparSSO_try env req t s) w)),
     snd (run handle (chatSetparSSO_try env req t s) w)).
Proof.
  intros Ht Nt Hs Ns. unfold chatSetparSSO. rewrite Ht, Nt, Hs, Ns.
  destruct (run handle (chatSetparSSO_try env req t s) w) as [[out w1] tr].
  reflexivity.
Qed.

(** X14: whenever the bootstrapper ends in failure, whatever switches
    were set and whatever enable calls it made, the answer is 403 and the
    run ends there: the trace is the verification followed by the calls of
    the bootstrapper. *)
Theorem closed_gate_forbids
    (env : Env) (req : Request) (t s : string) (p : Payload)
    (w w1 w2 : World) (tr : list Event) :
  sso_token req = Some t -> JsString.is_empty t = false ->
  CHAT_SETPAR_JWT_SECRET env = Some s -> JsString.is_empty s = false ->
  handle (JWT_verify t s) w = (inr p, w1) ->
  Js.truthy (userId p) = true ->
  Js.truthy (email p) = true ->
  run handle (ensureMultiUserModeEnabled env) w1 = (Returned false, w2, tr) ->
  chatSetparSSO handle env req w
  = (Json 403 "Multi-user mode must be enabled for SSO.", w2,
     resolved (JWT_verify t s) p :: tr).
Proof.
  intros Ht Nt Hs Ns Hv Tu Te He.
  rewrite (chatSetparSSO_run env req w Ht Nt Hs Ns).
  rewrite (run_try_verified env req Hv Tu Te), He. reflexivity.
Qed.

(** X15: a complete payload from which no username can be derived is
    answered 401 "Invalid SSO token payload." only after the bootstrapper
    has run, so the enable calls it made stay in effect; no user-store call
    is made. *)
Theorem unresolvable_identity_rejected
    (env : Env) (req : Request) (t s : string) (p : Payload)
    (w w1 w2 : World) (tr : list Event) :
  sso_token req = Some t -> JsString.is_empty t = false ->
  CHAT_SETPAR_JWT_SECRET env = Some s -> JsString.is_empty s = false ->
  handle (JWT_verify t s) w = (inr p, w1) ->
  Js.truthy (userId p) = true ->
  Js.truthy (email p) = true ->
  run handle (ensureMultiUserModeEnabled env) w1 = (Returned true, w2, tr) ->
  usernameFromPayload p = None ->
  chatSetparSSO handle env req w
  = (Json 401 "Invalid SSO token payload.", w2,
     resolved (JWT_verify t s) p :: tr).
Proof.
  intros Ht Nt Hs Ns Hv Tu Te He Hn.
  rewrite (chatSetparSSO_run env req w Ht Nt Hs Ns).
  rewrite (run_try_verified env req Hv Tu Te), He, Hn. reflexivity.
Qed.


(** X17: when the verification throws, no other call is made and the
    answer depends on the name of the error only: 401 "SSO token expired."
    for [TokenExpiredError], 401 "Invalid SSO token." for
    [JsonWebTokenError], 500 "SSO authentication failed." for any other. *)
Theorem verification_failure_touches_nothing
    (env : Env) (req : Request) (t s : string) (e : JsError) (w w1 : World) :
  sso_token req = Some t -> JsString.is_empty t = false ->
  CHAT_SETPAR_JWT_SECRET env = Some s -> JsString.is_empty s = false ->
  handle (JWT_verify t s) w = (inl e, w1) ->
  chatSetparSSO handle env req w
  = (chatSetparSSO_catch e, w1, [rejected (JWT_verify t s) e])
  /\ (name e = "TokenExpiredError" ->
      chatSetparSSO_catch e = Json 401 "SSO token expired.")
  /\ (name e <> "TokenExpiredError" -> name e = "JsonWebTokenError" ->
      chatSetparSSO_catch e = Json 401 "Invalid SSO token.")
  /\ (name e <> "TokenExpiredError" -> name e <> "JsonWebTokenError" ->
      chatSetparSSO_catch e = Json 500 "SSO authentication failed.").
Proof.
  intros Ht Nt Hs Ns Hv. split.
  - rewrite (chatSetparSSO_run env req w Ht Nt Hs Ns).
    unfold chatSetparSSO_try. cbn [run bind call]. rewrite Hv. reflexivity.
  - unfold chatSetparSSO_catch. repeat split.
    + intros ->. reflexivity.
    + intros _ ->. reflexivity.
    + intros N1 N2. apply String.eqb_neq in N1, N2. rewrite N1, N2.
      reflexivity.
Qed.

(** X18: when the primary username has no user at both lookups, the
    legacy user is found and the store performs the rename, the resolver
    makes exactly one update, of the legacy user's id to the primary
    username, and returns the renamed user with its fields filtered. *)
Theorem migration_renames_once
    (username : string) (em : JsValue) (legacy renamed filtered : User.t)
    (r : UpdateResult) (w w1 w2 w3 w4 w5 : World) :
  handle (User_get username) w = (inr None, w1) ->
  legacyUsernameFromEmail em <> "" ->
  legacyUsernameFromEmail em <> username ->
  handle (User_get (legacyUsernameFromEmail em)) w1 = (inr (Some legacy), w2) ->
  handle (User_get username) w2 = (inr None, w3) ->
  handle (User_update (User.id legacy) (SetUsername username)) w3 = (inr r, w4) ->
  updated_user r = Some renamed ->
  handle (User_filterFields renamed) w4 = (inr filtered, w5) ->
  run handle (resolveUser username em) w
  = (Returned (Some filtered), w5,
     [resolved (User_get username) None;
      resolved (User_get (legacyUsernameFromEmail em)) (Some legacy);
      resolved (User_get username) None;
      resolved (User_update (User.id legacy) (SetUsername username)) r;
      resolved (User_filterFields renamed) filtered]).
Proof.
  intros H N D HL HT HU F HF.
  unfold resolveUser. cbn [run bind call]. rewrite H.
  rewrite (migration_guard_true N D). cbn [run bind call]. rewrite HL.
  unfold migrateLegacyUser. cbn [run bind call]. rewrite HT.
  cbn [run bind call]. rewrite HU, F. cbn [run bind call]. rewrite HF.
  reflexivity.
Qed.

(** X21: with no user resolved, provisioning draws 32 random bytes and
    asks the store to create the user with the given username, that random
    string as password and the mapped role.  A create error gives 500
    "Failed to create SSO user."; an answer with neither error nor user
    makes the session bridge throw before any token is issued, which the
    middleware answers with 500 "SSO authentication failed." *)
Theorem new_user_provisioning
    (req : Request) (username mappedRole pw : string) (c : CreateResult)
    (w w1 w2 : World) :
  handle (crypto_randomBytes_hex 32) w = (inr pw, w1) ->
  handle (User_create username pw mappedRole) w1 = (inr c, w2) ->
  run handle (provisionUser username mappedRole None) w
  = (Returned (if truthy_string (create_error c)
               then inl (Json 500 "Failed to create SSO user.")
               else inr (created_user c)),
     w2,
     [resolved (crypto_randomBytes_hex 32) pw;
      resolved (User_create username pw mappedRole) c])
  /\ (created_user c = None ->
      run handle (sessionBridge req (created_user c)) w2
      = (Raised TypeError, w2, [])
      /\ respond (Raised TypeError) = Json 500 "SSO authentication failed.").
Proof.
  intros HR HC. split.
  - unfold provisionUser. cbn [run bind call]. rewrite HR.
    cbn [run bind call]. rewrite HC.
    destruct (truthy_string (create_error c)); reflexivity.
  - intros ->. split; reflexivity.
Qed.

End EveryRequest.

(** ** The container entry point *)

Section EntrypointFacts.

Import Entrypoint.

(** X23: the script waits for the database exactly when [DATABASE_URL] is
    set, because a set [DATABASE_URL] always selects the mode
    [postgresql], also with a [PRISMA_SCHEMA] that names another schema.
    The mode is [sqlite] exactly when [DATABASE_URL] is empty and the
    schema path does not contain [postgres]. *)
Theorem database_url_forces_postgres (v : Vars) :
  waits v = negb (JsString.is_empty (DATABASE_URL v))
  /\ (DATABASE_URL v <> "" -> PRISMA_DB_MODE v = "postgresql")
  /\ (PRISMA_DB_MODE v = "sqlite"
      <-> DATABASE_URL v = ""
          /\ contains "postgres" (PRISMA_SCHEMA_PATH v) = false)
  /\ (PRISMA_SCHEMA v = "" ->
      (PRISMA_DB_MODE v = "postgresql" <-> DATABASE_URL v <> "")).
Proof.
  unfold waits, PRISMA_DB_MODE, PRISMA_SCHEMA_PATH.
  destruct (DATABASE_URL v) as [|c r]; cbn [JsString.is_empty negb].
  - destruct (PRISMA_SCHEMA v) as [|c r]; cbn [JsString.is_empty].
    + repeat split; try reflexivity; try discriminate; try tauto;
        intros; try discriminate; tauto.
    + destruct (contains "postgres" (String c r)) eqn:C;
        repeat split; try reflexivity; try discriminate; try tauto;
        intros; try discriminate; try tauto.
      destruct H as [_ F]. discriminate F.
  - destruct (PRISMA_SCHEMA v) as [|c' r']; cbn [JsString.is_empty].
    + repeat split; try reflexivity; try discriminate; intros;
        try discriminate; try tauto.
      destruct H as [F _]. discriminate F.
    + destruct (contains "postgres" (String c' r')) eqn:C;
        repeat split; try reflexivity; try discriminate; intros;
        try discriminate; try tauto;
        destruct H as [F _]; discriminate F.
Qed.

Lemma probe_loop_spec nc : forall left i,
  let r := probe_loop nc i left in
  (probes r <= left)%nat
  /\ (status r = 0 ->
      (1 <= probes r)%nat /\ sleeps r = (probes r - 1)%nat
      /\ nc (i + probes r - 1)%nat = true
      /\ forall j, (i <= j < i + probes r - 1)%nat -> nc j = false)
  /\ (status r <> 0 ->
      status r = 1 /\ probes r = left /\ sleeps r = left
      /\ forall j, (i <= j < i + left)%nat -> nc j = false).
Proof.
  induction left as [|l IH]; intros i; cbn [probe_loop].
  - cbn. repeat split; try lia; try discriminate.
  - destruct (nc i) eqn:E.
    + cbn. repeat split; try lia; try congruence.
      replace (i + 1 - 1)%nat with i by lia. exact E.
    + specialize (IH (S i)). cbv zeta in IH.
      destruct IH as [B [S0 S1]]. cbn [status probes sleeps].
      split; [lia|]. split.
      * intros Z0. destruct (S0 Z0) as [P1 [Sl [Hit Miss]]].
        split; [lia|]. split; [lia|]. split.
        -- replace (i + S (probes (probe_loop nc (S i) l)) - 1)%nat
             with (S i + probes (probe_loop nc (S i) l) - 1)%nat by lia.
           exact Hit.
        -- intros j Hj. destruct (Nat.eq_dec j i) as [->|N]; [exact E|].
           apply Miss. lia.
      * intros Z1. destruct (S1 Z1) as [St [P [Sl Miss]]].
        split; [exact St|]. split; [lia|]. split; [lia|].
        intros j Hj. destruct (Nat.eq_dec j i) as [->|N]; [exact E|].
        apply Miss. lia.
Qed.

(** X24: [wait_for_postgres] returns 0 or 1 after at most 60 probes.  It
    probes nothing when no host was extracted.  Otherwise it returns 0
    exactly when one of the first 60 probes succeeds, stops at the first
    such probe and has slept once per failed probe; it returns 1 after 60
    failed probes and 60 sleeps. *)
Theorem wait_for_postgres_bounded
    (connection_string host port : string)
    (nc : string -> string -> nat -> bool) :
  let r := wait_for_postgres connection_string host port nc in
  let probe := nc host (port_or_default port) in
  (status r = 0 \/ status r = 1)
  /\ (probes r <= 60)%nat /\ (sleeps r <= probes r)%nat
  /\ (host = "" \/ host = connection_string -> r = mkWaited 0 0 0)
  /\ (host <> "" -> host <> connection_string ->
      (status r = 0 <-> exists i, (1 <= i <= 60)%nat /\ probe i = true)
      /\ (status r = 0 ->
          probe (probes r) = true /\ sleeps r = (probes r - 1)%nat
          /\ forall j, (1 <= j < probes r)%nat -> probe j = false)
      /\ (status r = 1 -> probes r = 60%nat /\ sleeps r = 60%nat)).
Proof.
  cbv zeta. unfold wait_for_postgres.
  pose proof (probe_loop_spec (nc host (port_or_default port)) 60 1) as S.
  cbv zeta in S. destruct S as [B [S0 S1]].
  destruct (JsString.is_empty host) eqn:E; cbn [orb].
  - apply is_empty_true in E. subst host. cbn.
    repeat split; try lia; try tauto; intros; try contradiction; lia.
  - apply is_empty_false in E.
    destruct (String.eqb host connection_string) eqn:Q.
    + apply String.eqb_eq in Q. cbn.
      repeat split; try lia; try tauto; intros; try contradiction; lia.
    + apply String.eqb_neq in Q.
      set (r := probe_loop (nc host (port_or_default port)) 1 60) in *.
      assert (status r = 0 \/ status r = 1) as D.
      { destruct (Z.eq_dec (status r) 0) as [Z0|Z0]; [tauto|].
        right. apply S1, Z0. }
      split; [exact D|]. split; [lia|].
      split.
      { destruct D as [Z0|Z1].
        - destruct (S0 Z0) as [? [? _]]. lia.
        - destruct S1 as [_ [? [? _]]]; [lia|]. lia. }
      split; [tauto|]. intros _ _. split; [|split].
      * split.
        -- intros Z0. destruct (S0 Z0) as [P1 [_ [Hit _]]].
           exists (probes r). split; [lia|].
           replace (probes r) with (1 + probes r - 1)%nat at 1 by lia.
           exact Hit.
        -- intros [i [Hi Hp]]. destruct D as [Z0|Z1]; [exact Z0|].
           destruct S1 as [_ [_ [_ Miss]]]; [lia|].
           rewrite Miss in Hp by lia. discriminate Hp.
      * intros Z0. destruct (S0 Z0) as [P1 [Sl [Hit Miss]]].
        split; [|split; [exact Sl|]].
        -- replace (probes r) with (1 + probes r - 1)%nat at 1 by lia.
           exact Hit.
        -- intros j Hj. apply Miss. lia.
      * intros Z1. destruct S1 as [_ [P [Sl _]]]; [lia|]. tauto.
Qed.

Lemma and_chain_prefix ok : forall l c,
  In c (and_chain ok l) -> In c l.
Proof.
  induction l as [|d r IH]; intros c H; cbn in *; [exact H|].
  destruct (ok d); cbn in H; [|tauto].
  destruct H as [->|H]; [tauto | right; apply IH, H].
Qed.

Lemma and_chain_all ok : forall l,
  forallb ok l = true -> and_chain ok l = l.
Proof.
  induction l as [|d r IH]; intros H; cbn in *; [reflexivity|].
  apply andb_true_iff in H as [Hd Hr]. rewrite Hd, (IH Hr). reflexivity.
Qed.

Lemma and_chain_last ok : forall l c,
  In c (and_chain ok (l ++ [c])) -> ~ In c l -> forallb ok l = true.
Proof.
  induction l as [|d r IH]; intros c H N; cbn in *; [reflexivity|].
  destruct (ok d) eqn:E; cbn in H.
  - destruct H as [->|H]; [tauto|]. cbn. apply (IH c H). tauto.
  - destruct H as [->|[]]. tauto.
Qed.

(** X25: in the server block, [node index.js] runs only when every
    command before it succeeded; [prisma db push] and the seed run only in
    mode [postgresql], [prisma migrate deploy] only in the other mode, and
    every Prisma command gets the selected schema path. *)
Theorem server_starts_last (v : Vars) (ok : Command -> bool) :
  (In node_server (and_chain ok (server_chain v)) ->
   forall c, In c (server_chain v) -> c <> node_server -> ok c = true)
  /\ (forall s, In (prisma_db_push s) (and_chain ok (server_chain v))
                \/ In node_seed (and_chain ok (server_chain v)) ->
                PRISMA_DB_MODE v = "postgresql")
  /\ (forall s, In (prisma_migrate_deploy s) (and_chain ok (server_chain v)) ->
                PRISMA_DB_MODE v <> "postgresql")
  /\ (forall c s, In c (and_chain ok (server_chain v)) ->
                  c = prisma_generate s \/ c = prisma_db_push s
                  \/ c = prisma_migrate_deploy s ->
                  s = PRISMA_SCHEMA_PATH v).
Proof.
  unfold server_chain.
  destruct (String.eqb (PRISMA_DB_MODE v) "postgresql") eqn:M.
  - apply String.eqb_eq in M. split; [|split; [|split]].
    + intros H c Hc Nc.
      rewrite app_assoc in H, Hc.
      apply and_chain_last in H.
      * rewrite forallb_forall in H. apply H.
        apply in_app_or in Hc as [Hc|[<-|[]]]; [exact Hc | contradiction].
      * cbn. intros F. repeat destruct F as [F|F]; try discriminate F; exact F.
    + intros; exact M.
    + intros s H. apply and_chain_prefix in H. cbn in H.
      repeat destruct H as [H|H]; try discriminate H; destruct H.
    + intros c s H E. apply and_chain_prefix in H. cbn in H.
      repeat destruct H as [H|H]; subst; try destruct H;
        destruct E as [E|[E|E]]; try discriminate E; congruence.
  - apply String.eqb_neq in M. split; [|split; [|split]].
    + intros H c Hc Nc.
      rewrite app_assoc in H, Hc.
      apply and_chain_last in H.
      * rewrite forallb_forall in H. apply H.
        apply in_app_or in Hc as [Hc|[<-|[]]]; [exact Hc | contradiction].
      * cbn. intros F. repeat destruct F as [F|F]; try discriminate F; exact F.
    + intros s [H|H]; apply and_chain_prefix in H; cbn in H;
        repeat destruct H as [H|H]; try discriminate H; destruct H.
    + intros; exact M.
    + intros c s H E. apply and_chain_prefix in H. cbn in H.
      repeat destruct H as [H|H]; subst; try destruct H;
        destruct E as [E|[E|E]]; try discriminate E; congruence.
Qed.

End EntrypointFacts.

Section Startup.

Import Entrypoint.

Lemma waits_database_url (v : Vars) :
  waits v = negb (JsString.is_empty (DATABASE_URL v)).
Proof.
  unfold waits, PRISMA_DB_MODE.
  destruct (JsString.is_empty (DATABASE_URL v)); cbn [negb].
  - apply andb_false_r.
  - destruct (contains "postgres" (PRISMA_SCHEMA_PATH v)); reflexivity.
Qed.

(** X26: under [set -e] the script starts neither the server block nor
    anything after the wait exactly when [DATABASE_URL] is set, a host was
    extracted from it and all 60 probes of that host fail. *)
Theorem unreachable_database_stops_startup
    (v : Vars) (host port : string) (nc : string -> string -> nat -> bool) :
  launches v host port nc = false
  <-> DATABASE_URL v <> "" /\ host <> "" /\ host <> DATABASE_URL v
      /\ forall i, (1 <= i <= 60)%nat ->
                   nc host (port_or_default port) i = false.
Proof.
  unfold launches. rewrite waits_database_url.
  pose proof (probe_loop_spec (nc host (port_or_default port)) 60 1) as S.
  cbv zeta in S. destruct S as [B [S0 S1]].
  unfold wait_for_postgres.
  destruct (JsString.is_empty (DATABASE_URL v)) eqn:D; cbn [negb].
  - apply is_empty_true in D. split; [discriminate | tauto].
  - apply is_empty_false in D.
    destruct (JsString.is_empty host) eqn:E; cbn [orb].
    + apply is_empty_true in E. cbn. split; [discriminate | tauto].
    + apply is_empty_false in E.
      destruct (String.eqb host (DATABASE_URL v)) eqn:Q.
      * apply String.eqb_eq in Q. cbn. split; [discriminate | tauto].
      * apply String.eqb_neq in Q. rewrite Z.eqb_neq. split.
        -- intros N. destruct (S1 N) as [_ [_ [_ Miss]]].
           repeat split; try assumption. intros i Hi. apply Miss. lia.
        -- intros [_ [_ [_ Miss]]] Z0.
           destruct (S0 Z0) as [P1 [_ [Hit _]]].
           rewrite Miss in Hit by lia. discriminate Hit.
Qed.

End Startup.

(** ** More runs on concrete inputs *)

Lemma isTruthyEnv_padding_witness :
  isTruthyEnv (Some ("  " ++ "OFF" ++ " ")) = isTruthyEnv (Some "OFF")
  /\ isTruthyEnv (Some ("  " ++ " ")) = false.
Proof.
  apply isTruthyEnv_padding; repeat constructor.
Defined.

Lemma isTruthyEnv_case_witness :
  isTruthyEnv (Some "FALSE") = isTruthyEnv (Some "false").
Proof. apply isTruthyEnv_case. reflexivity. Defined.

Lemma identifier_truncation_collision_witness :
  usernameFromPayload Scenario.long_a = usernameFromPayload Scenario.long_b.
Proof.
  apply identifier_truncation_collision;
    vm_compute; first [discriminate | reflexivity].
Defined.

Lemma call_budget_witness :
  exists t s,
    sso_token Sample.req = Some t
    /\ CHAT_SETPAR_JWT_SECRET Sample.env_off = Some s
    /\ hd_error (ops (snd (chatSetparSSO Mem.handle Sample.env_off
                             Sample.req Sample.world_legacy)))
       = Some (JWT_verify t s)
    /\ within_budget (ops (snd (chatSetparSSO Mem.handle Sample.env_off
                                  Sample.req Sample.world_legacy))) = true
    /\ issue_last (ops (snd (chatSetparSSO Mem.handle Sample.env_off
                               Sample.req Sample.world_legacy))) = true.
Proof. apply call_budget. reflexivity. Defined.

Lemma redirect_needs_issued_token_witness :
  302 = 302
  /\ exists ev i res t,
       last_event (snd (chatSetparSSO Mem.handle Sample.env_off Sample.req
                          Scenario.world_returning)) = Some ev
       /\ issued ev = Some (i, res)
       /\ token res = Some t
       /\ JsString.is_empty t = false
       /\ truthy_string (issue_error res) = false
       /\ "/sso/simple?token=t-9&redirectTo=%2Fworkspace%2Fa%20b"
          = "/sso/simple?token=" ++ Uri.encodeURIComponent t
            ++ "&redirectTo="
            ++ Uri.encodeURIComponent (redirect_target Sample.req)
       /\ In i (map User.id
                  (returned_users
                     (snd (chatSetparSSO Mem.handle Sample.env_off Sample.req
                             Scenario.world_returning)))).
Proof.
  exact (@redirect_needs_issued_token _ Mem.handle Sample.env_off Sample.req
           Scenario.world_returning 302
           "/sso/simple?token=t-9&redirectTo=%2Fworkspace%2Fa%20b" eq_refl).
Defined.

Lemma gate_before_users_witness :
  match snd (chatSetparSSO Mem.handle Sample.env_off Sample.req
               Sample.world_legacy) with
  | ev :: rest =>
      exists p,
        payload_of_event ev = Some p
        /\ Js.truthy (userId p) = true
        /\ Js.truthy (email p) = true
        /\ usernameFromPayload p <> None
        /\ existsb enabled_by rest = true
  | [] => False
  end.
Proof.
  exact (@gate_before_users _ Mem.handle Sample.env_off Sample.req
           Sample.world_legacy eq_refl).
Defined.

Lemma forbidden_means_untouched_witness :
  Forall (fun o => behind_gate o = false)
    (ops (snd (chatSetparSSO Mem.handle Sample.env_off Sample.req
                 Sample.world_disabled)))
  /\ existsb enabled_by
       (snd (chatSetparSSO Mem.handle Sample.env_off Sample.req
               Sample.world_disabled)) = false.
Proof.
  exact (@forbidden_means_untouched _ Mem.handle Sample.env_off Sample.req
           Sample.world_disabled _ eq_refl).
Defined.

Lemma closed_gate_forbids_witness :
  chatSetparSSO Mem.handle Sample.env_default_on Sample.req
    Sample.world_enable_fails
  = (Json 403 "Multi-user mode must be enabled for SSO.",
     snd (fst (run Mem.handle
                 (ensureMultiUserModeEnabled Sample.env_default_on)
                 (snd (Mem.handle (JWT_verify "tok" "secret")
                         Sample.world_enable_fails)))),
     resolved (JWT_verify "tok" "secret") Sample.u1
     :: snd (run Mem.handle
               (ensureMultiUserModeEnabled Sample.env_default_on)
               (snd (Mem.handle (JWT_verify "tok" "secret")
                       Sample.world_enable_fails)))).
Proof.
  apply (@closed_gate_forbids _ Mem.handle Sample.env_default_on Sample.req
           "tok" "secret" Sample.u1 Sample.world_enable_fails
           (snd (Mem.handle (JWT_verify "tok" "secret")
                   Sample.world_enable_fails)));
    reflexivity.
Defined.

Lemma unresolvable_identity_rejected_witness :
  chatSetparSSO Mem.handle Scenario.env_auto_on Sample.req
    Scenario.world_no_identity
  = (Json 401 "Invalid SSO token payload.",
     snd (fst (run Mem.handle
                 (ensureMultiUserModeEnabled Scenario.env_auto_on)
                 (snd (Mem.handle (JWT_verify "tok" "secret")
                         Scenario.world_no_identity)))),
     resolved (JWT_verify "tok" "secret") Scenario.no_identity
     :: snd (run Mem.handle
               (ensureMultiUserModeEnabled Scenario.env_auto_on)
               (snd (Mem.handle (JWT_verify "tok" "secret")
                       Scenario.world_no_identity)))).
Proof.
  apply (@unresolvable_identity_rejected _ Mem.handle Scenario.env_auto_on
           Sample.req "tok" "secret" Scenario.no_identity
           Scenario.world_no_identity
           (snd (Mem.handle (JWT_verify "tok" "secret")
                   Scenario.world_no_identity)));
    reflexivity.
Defined.


Lemma verification_failure_touches_nothing_witness :
  chatSetparSSO Mem.handle Sample.env_off Sample.req Scenario.world_expired
  = (Json 401 "SSO token expired.",
     snd (Mem.handle (JWT_verify "tok" "secret") Scenario.world_expired),
     [rejected (JWT_verify "tok" "secret") Scenario.expired]).
Proof.
  destruct (@verification_failure_touches_nothing _ Mem.handle Sample.env_off
              Sample.req "tok" "secret" Scenario.expired
              Scenario.world_expired
              (snd (Mem.handle (JWT_verify "tok" "secret")
                      Scenario.world_expired))
              eq_refl eq_refl eq_refl eq_refl eq_refl) as [H [H1 _]].
  rewrite H, (H1 eq_refl). reflexivity.
Defined.

Lemma migration_renames_once_witness :
  fst (fst (run Mem.handle (resolveUser "setpar_u1" (JStr "Bob.Smith@x.com"))
              Sample.world_legacy))
  = Returned (Some (User.mk 7 "setpar_u1" "default" None)).
Proof.
  erewrite (@migration_renames_once _ Mem.handle "setpar_u1"
              (JStr "Bob.Smith@x.com") Sample.bob
              (User.mk 7 "setpar_u1" "default" (Some "pw"))
              (User.mk 7 "setpar_u1" "default" None));
    try reflexivity; vm_compute; discriminate.
Defined.

Lemma new_user_provisioning_witness :
  ops (snd (run Mem.handle (provisionUser "setpar_u1" "default" None)
              Scenario.world_new))
  = [crypto_randomBytes_hex 32;
     User_create "setpar_u1" (string_of_list_ascii (repeat "a"%char 64))
       "default"].
Proof.
  destruct (@new_user_provisioning _ Mem.handle Sample.req "setpar_u1"
              "default" (string_of_list_ascii (repeat "a"%char 64))
              (mkCreateResult
                 (Some (User.mk 100 "setpar_u1" "default"
                          (Some (string_of_list_ascii (repeat "a"%char 64)))))
                 None)
              Scenario.world_new
              (snd (Mem.handle (crypto_randomBytes_hex 32) Scenario.world_new))
              (snd (Mem.handle
                      (User_create "setpar_u1"
                         (string_of_list_ascii (repeat "a"%char 64)) "default")
                      (snd (Mem.handle (crypto_randomBytes_hex 32)
                              Scenario.world_new))))
              eq_refl eq_refl) as [H _].
  rewrite H. reflexivity.
Defined.

Lemma identifier_case_and_punctuation_witness :
  usernameFromPayload (with_userId Sample.u1 (JStr ("U" ++ String "-" "1")))
  = usernameFromPayload (with_userId Sample.u1 (JStr ("U" ++ "1"))).
Proof.
  apply (proj2 (identifier_case_and_punctuation Sample.u1 "U" "1" "-")).
  reflexivity.
Defined.

Lemma redirect_url_shape_witness :
  redirect_target Sample.req = path Sample.req.
Proof.
  destruct (redirect_url_shape Sample.req "t-9") as [_ [_ [H _]]].
  apply H; discriminate.
Defined.

Lemma wait_for_postgres_bounded_witness :
  Entrypoint.status
    (Entrypoint.wait_for_postgres "postgres://db:5432/app" "db" "5432"
       (fun _ _ i => Nat.eqb i 3)) = 0.
Proof.
  destruct (wait_for_postgres_bounded "postgres://db:5432/app"
              "db" "5432" (fun _ _ i => Nat.eqb i 3))
    as [_ [_ [_ [_ H]]]].
  destruct H as [[_ H] _]; try discriminate.
  apply H. exists 3%nat. split; [lia | reflexivity].
Defined.

Lemma unreachable_database_stops_startup_witness :
  Entrypoint.launches (Entrypoint.mkVars "" "postgres://db:5432/app")
    "db" "5432" (fun _ _ _ => false) = false.
Proof.
  apply unreachable_database_stops_startup.
  repeat split; try discriminate; reflexivity.
Defined.
